(** * neuralhydrology: the ColoradoSWE data set loader

    A shallow embedding of [neuralhydrology/datasetzoo/coloradoswe.py].

    - A pandas table is a [DataFrame]: column labels and rows, each row an
      index key with one cell per column.  Time series are indexed by
      calendar day (a day number, [Z]) and hold binary64 cells; attribute
      tables are indexed by basin identifier (a [string]).  The operations
      of pandas are modelled on tables whose index labels are distinct,
      whose column labels are distinct and whose dates are in chronological
      order, which is what the files of the data set hold; the theorems
      that depend on it say so.
    - The data directory is a [DataDir] record holding every file the loader
      reads, as pandas parses it.  A file or folder whose presence the code
      tests ([is_dir], [exists], [is_file]) is an [option] or a lookup that
      can fail; the files the code opens without a test are taken to be
      there.
    - A Python exception is a value of [exn]; code that can raise returns a
      [result]. *)

From Stdlib Require Import ZArith Floats Lia Ascii String.
From stdpp Require Import base list sorting strings pretty.

Set Warnings "-inexact-float".

Local Open Scope string_scope.
Local Open Scope list_scope.
Local Open Scope Z_scope.

(** ** Exceptions *)

Inductive exn : Type :=
| OSError (msg : string)
| FileNotFoundError (msg : string)
| RuntimeError (msg : string)
| ValueError (msg : string)
| KeyError (msg : string)
| NameError (msg : string).

Inductive result (A : Type) : Type :=
| Ok (a : A)
| Raise (e : exn).

Arguments Ok {A} a.
Arguments Raise {A} e.

#[global] Instance result_ret : MRet result := fun _ a => Ok a.

#[global] Instance result_bind : MBind result := fun _ _ k m =>
  match m with
  | Ok a => k a
  | Raise e => Raise e
  end.

(** ** Strings *)

Module Str.

Definition newline : string := String (ascii_of_nat 10) EmptyString.

(** [s[1:]] *)
Definition tail (s : string) : string :=
  match s with
  | EmptyString => EmptyString
  | String _ t => t
  end.

Fixpoint rev_onto (s acc : string) : string :=
  match s with
  | EmptyString => acc
  | String c t => rev_onto t (String c acc)
  end.

Definition rev (s : string) : string := rev_onto s EmptyString.

(** The characters [str.rstrip()] removes, among the ASCII ones: tab,
    line feed, vertical tab, form feed, carriage return, the four
    separators 28..31, and the space. *)
Definition is_space (c : ascii) : bool :=
  let n := Z.of_nat (nat_of_ascii c) in
  (((9 <=? n) && (n <=? 13)) || ((28 <=? n) && (n <=? 32)))%Z.

Fixpoint lstrip (s : string) : string :=
  match s with
  | EmptyString => EmptyString
  | String c t => if is_space c then lstrip t else s
  end.

Definition rstrip (s : string) : string := rev (lstrip (rev s)).

Definition lower_ascii (c : ascii) : ascii :=
  let n := nat_of_ascii c in
  if ((65 <=? n) && (n <=? 90))%nat then ascii_of_nat (n + 32) else c.

(** [s.lower()] on ASCII text. *)
Fixpoint lower (s : string) : string :=
  match s with
  | EmptyString => EmptyString
  | String c t => String (lower_ascii c) (lower t)
  end.

(** [needle in hay] *)
Fixpoint contains (needle hay : string) : bool :=
  String.prefix needle hay ||
  match hay with
  | EmptyString => false
  | String _ t => contains needle t
  end.

(** [s.zfill(width)]: zeros on the left, after a leading sign. *)
Definition zfill (width : nat) (s : string) : string :=
  let pad := string_of_list_ascii
               (replicate (width - String.length s) "0"%char) in
  match s with
  | String c t =>
      if bool_decide (c = "+"%char ∨ c = "-"%char)
      then String c (pad +:+ t)
      else pad +:+ s
  | EmptyString => pad
  end.

Definition startswith (pre s : string) : bool := String.prefix pre s.

Definition endswith (suf s : string) : bool :=
  String.prefix (rev suf) (rev s).

(** A file name against the pattern [pre*suf], the star standing for any
    run of characters. *)
Definition fnmatch_star (pre suf name : string) : bool :=
  (String.length pre + String.length suf <=? String.length name)%nat
  && startswith pre name && endswith suf name.

End Str.

(** ** Calendar days

    A date is the number of days since 1970-01-01. *)

Definition date : Type := Z.

Definition days_from_civil (y m d : Z) : date :=
  let y' := if m <=? 2 then y - 1 else y in
  let era := y' / 400 in
  let yoe := y' - era * 400 in
  let mp := if 2 <? m then m - 3 else m + 9 in
  let doy := (153 * mp + 2) / 5 + d - 1 in
  let doe := yoe * 365 + yoe / 4 - yoe / 100 + doy in
  era * 146097 + doe - 719468.

(** ** binary64 *)

(** A Python [int] converted to a float: rounded to nearest, ties to even. *)
Definition float_of_Z (z : Z) : float :=
  SF2Prim (binary_normalize prec emax z 0 false).

(** ** Missing-markers *)

Class Missing (V : Type) : Type := NA : V.

#[global] Instance float_missing : Missing float := nan.

(** An attribute cell: an integer, a float or a text. *)
Inductive attr : Type :=
| AInt (n : Z)
| AFloat (x : float)
| AStr (s : string).

#[global] Instance attr_missing : Missing attr := AFloat nan.

(** ** Tables

    A [DataFrame] has column labels and rows; a row is its index key and one
    cell per column, in column order.  A [Series] is one column with its
    index. *)

Record DataFrame (K V : Type) : Type := mkDataFrame {
  columns : list string;
  rows : list (K * list V)
}.

Arguments mkDataFrame {K V} columns rows.
Arguments columns {K V} d.
Arguments rows {K V} d.

Abbreviation Series K V := (list (K * V)) (only parsing).

Definition index {K V} (df : DataFrame K V) : list K := (rows df).*1.

(** Position of the first column labelled [c]. *)
Fixpoint col_pos (c : string) (cols : list string) : option nat :=
  match cols with
  | [] => None
  | c' :: cols =>
      if decide (c' = c) then Some 0%nat else S <$> col_pos c cols
  end.

(** Value at the first entry keyed [k]. *)
Fixpoint assoc {K A} `{EqDecision K} (k : K) (l : list (K * A)) : option A :=
  match l with
  | [] => None
  | (k', a) :: l => if decide (k' = k) then Some a else assoc k l
  end.

(** [self.union(other, sort=False)] on unique indexes: the labels of [l],
    then those of [k] that [l] lacks. *)
Definition index_union {K} `{EqDecision K} (l k : list K) : list K :=
  l ++ list_difference k l.

(** Union of the indexes of several tables, labels in order of first
    appearance. *)
Definition union_labels {K} `{EqDecision K} (ls : list (list K)) : list K :=
  foldl index_union [] ls.

(** Union of several date indexes; pandas sorts it. *)
Definition union_dates (ls : list (list date)) : list date :=
  merge_sort Z.le (union_labels ls).

Section frame.
Context {K V : Type} `{EqDecision K} `{Missing V}.

Definition all_missing (df : DataFrame K V) : list V :=
  replicate (length (columns df)) NA.

(** The row labelled [k], or a row of missing-markers. *)
Definition row_or_na (k : K) (df : DataFrame K V) : list V :=
  default (all_missing df) (assoc k (rows df)).

(** [df[c]] and [df.loc[:, c]] *)
Definition get_column (c : string) (df : DataFrame K V)
  : result (Series K V) :=
  match col_pos c (columns df) with
  | Some j => Ok ((λ r, (r.1, default NA (r.2 !! j))) <$> rows df)
  | None => Raise (KeyError c)
  end.

(** [df[[c]].rename(columns={c: c'})] *)
Definition select_rename (c c' : string) (df : DataFrame K V)
  : result (DataFrame K V) :=
  s ← get_column c df;
  Ok (mkDataFrame [c'] ((λ r, (r.1, [r.2])) <$> s)).

(** Store [v] under column [c] in one row: in place when the column is
    there, as a new last cell when it is not. *)
Definition put_cell (cols : list string) (c : string) (v : V)
  (vals : list V) : list V :=
  match col_pos c cols with
  | Some j => <[j := v]> vals
  | None => vals ++ [v]
  end.

Definition with_column (c : string) (cols : list string) : list string :=
  match col_pos c cols with
  | Some _ => cols
  | None => cols ++ [c]
  end.

(** [df.loc[keys, c] = ser].  Every label of [keys] has to be in the index:
    [.loc] with a list of labels raises [KeyError] when one of them is
    missing, on reading and on setting alike.  The rows selected by [keys] take the value [ser] has at their label, a
    missing-marker when it has none; the other rows keep their cell, or get
    a missing-marker when the column is new. *)
Definition loc_setitem (keys : list K) (c : string) (ser : Series K V)
  (df : DataFrame K V) : result (DataFrame K V) :=
  if forallb (λ k, bool_decide (k ∈ index df)) keys then
    Ok (mkDataFrame (with_column c (columns df))
          ((λ r,
             if bool_decide (r.1 ∈ keys)
             then (r.1, put_cell (columns df) c
                          (default NA (assoc r.1 ser)) r.2)
             else match col_pos c (columns df) with
                  | Some _ => r
                  | None => (r.1, r.2 ++ [NA])
                  end) <$> rows df))
  else Raise (KeyError "labels not in index").

(** [df[c] = ser]: the series is aligned on the table's index.  A table
    without rows first takes the index of a series that has some. *)
Definition setitem (c : string) (ser : Series K V) (df : DataFrame K V)
  : DataFrame K V :=
  let base :=
    match rows df, ser with
    | [], _ :: _ => (λ p, (p.1, all_missing df)) <$> ser
    | _, _ => rows df
    end in
  mkDataFrame (with_column c (columns df))
    ((λ r, (r.1, put_cell (columns df) c (default NA (assoc r.1 ser)) r.2))
       <$> base).

(** [df.rename(columns=f)] *)
Definition rename_columns (f : string → string) (df : DataFrame K V)
  : DataFrame K V :=
  mkDataFrame (f <$> columns df) (rows df).

(** [pd.concat(dfs, axis=1)]: the columns side by side over the union of
    the indexes. *)
Definition concat_axis1 (union : list (list K) → list K)
  (dfs : list (DataFrame K V)) : result (DataFrame K V) :=
  match dfs with
  | [] => Raise (ValueError "No objects to concatenate")
  | _ =>
      Ok (mkDataFrame (concat (columns <$> dfs))
            ((λ k, (k, concat ((row_or_na k) <$> dfs)))
               <$> union (index <$> dfs)))
  end.

(** [df.reindex(keys)] *)
Definition reindex (keys : list K) (df : DataFrame K V) : DataFrame K V :=
  mkDataFrame (columns df) ((λ k, (k, row_or_na k df)) <$> keys).

(** [df[df.index.isin(keys)]] *)
Definition filter_isin (keys : list K) (df : DataFrame K V)
  : DataFrame K V :=
  mkDataFrame (columns df) (filter (λ r, r.1 ∈ keys) (rows df)).

Definition rows_at (k : K) (df : DataFrame K V) : list (K * list V) :=
  filter (λ r, r.1 = k) (rows df).

(** [df.join(other, how='left')] *)
Definition join_left (df other : DataFrame K V) : result (DataFrame K V) :=
  if bool_decide (Exists (λ c, c ∈ columns other) (columns df)) then
    Raise (ValueError "columns overlap but no suffix specified")
  else
    Ok (mkDataFrame (columns df ++ columns other)
          (concat ((λ r,
             match rows_at r.1 other with
             | [] => [(r.1, r.2 ++ all_missing other)]
             | ms => (λ m, (r.1, r.2 ++ m.2)) <$> ms
             end) <$> rows df))).

(** [df.loc[keys]] for a list of labels *)
Definition loc_list (keys : list K) (df : DataFrame K V)
  : result (DataFrame K V) :=
  if forallb (λ k, bool_decide (k ∈ index df)) keys then
    Ok (mkDataFrame (columns df) (concat ((λ k, rows_at k df) <$> keys)))
  else Raise (KeyError "labels not in index").

(** [df.drop(c, axis=1)] *)
Definition drop_column (c : string) (df : DataFrame K V)
  : result (DataFrame K V) :=
  match col_pos c (columns df) with
  | None => Raise (KeyError c)
  | Some _ =>
      Ok (mkDataFrame (filter (λ c', c' ≠ c) (columns df))
            ((λ r, (r.1, (filter (λ p, p.1 ≠ c) (zip (columns df) r.2)).*2))
               <$> rows df))
  end.

End frame.

(** *** Label slices of a date index

    On a chronological index pandas finds the bounds of a label slice by
    bisection and keeps the rows between them. *)

Fixpoint drop_while {A} (p : A → bool) (l : list A) : list A :=
  match l with
  | [] => []
  | x :: l' => if p x then drop_while p l' else l
  end.

Fixpoint take_while {A} (p : A → bool) (l : list A) : list A :=
  match l with
  | [] => []
  | x :: l' => if p x then x :: take_while p l' else []
  end.

(** [df.loc[lo:, :]] *)
Definition loc_from {V} (lo : date) (df : DataFrame date V)
  : DataFrame date V :=
  mkDataFrame (columns df) (drop_while (λ r, r.1 <? lo) (rows df)).

(** [df.loc[:hi, :]] *)
Definition loc_upto {V} (hi : date) (df : DataFrame date V)
  : DataFrame date V :=
  mkDataFrame (columns df) (take_while (λ r, r.1 <=? hi) (rows df)).

(** [pd.date_range(start, end, freq='D')] *)
Definition date_range (start stop : date) : list date :=
  seqZ start (stop - start + 1).

(** Python's [min] and [max] over an index. *)
Definition py_min (l : list date) : result date :=
  match l with
  | [] => Raise (ValueError "min() arg is an empty sequence")
  | x :: l' => Ok (foldl Z.min x l')
  end.

Definition py_max (l : list date) : result date :=
  match l with
  | [] => Raise (ValueError "max() arg is an empty sequence")
  | x :: l' => Ok (foldl Z.max x l')
  end.

(** ** The data directory *)

(** A file [<basin>_*_forcing_leap.txt]: its name, the catchment area of the
    third header line, and the table below the header, indexed by the date
    built from its Year, Mnth and Day columns. *)
Record ForcingFile : Type := mkForcingFile {
  ff_name : string;
  ff_area : Z;
  ff_body : DataFrame date float
}.

(** A file [<basin>_streamflow_qc.txt]: its name and its QObs column (cubic
    feet per second), indexed by date. *)
Record StreamflowFile : Type := mkStreamflowFile {
  sf_name : string;
  sf_QObs : Series date float
}.

Record DataDir : Type := mkDataDir {
  data_dir_path : string;
  (** the two basin lists, line by line *)
  list_671_camels_basins_txt : list string;
  list_colorado_hydroatlas_basins_txt : list string;
  (** [CAMELS_US/basin_mean_forcing]: a folder per forcing product, with
      its files in the order [glob] walks them *)
  basin_mean_forcing : list (string * list ForcingFile);
  (** [CAMELS_US/usgs_streamflow], in the order [glob] walks it *)
  usgs_streamflow : list StreamflowFile;
  (** [CAMELS_US/colorado_swe], both tables indexed by date *)
  co_camels_stats_all_years_20230814_csv : option (DataFrame date float);
  co_camels_snotel_time_series_csv : option (DataFrame date float);
  (** [HydroAtlas_colorado/forcing]: a column per basin *)
  hydroatlas_co_apcpsfc_qc_daily_csv : DataFrame date float;
  hydroatlas_co_dswrfsfc_qc_daily_csv : DataFrame date float;
  hydroatlas_co_pressfc_qc_daily_csv : DataFrame date float;
  hydroatlas_co_tmp2m_max_qc_daily_csv : DataFrame date float;
  hydroatlas_co_tmp2m_min_qc_daily_csv : DataFrame date float;
  (** [CAMELS_US/camels_attributes_v2.0/camels_*.txt], indexed by gauge_id *)
  camels_attributes_v2_0 : option (list (DataFrame string attr));
  (** [CAMELS_US/hydroATLAS/hydroATLAS_Camels], indexed by gauge_id *)
  camels_hydroatlas_csv : option (DataFrame string attr);
  camels_hydroatlas_pca_transformed_all_csv : option (DataFrame string attr)
}.

(** [[line.rstrip() for line in f]] *)
Definition read_basin_list (lines : list string) : list string :=
  Str.rstrip <$> lines.

(** ** Static attributes *)

Section attributes.

(** Python's [str] of a float. *)
Variable str_float : float → string.

Definition py_str (a : attr) : string :=
  match a with
  | AInt n => pretty n
  | AFloat x => str_float x
  | AStr s => s
  end.

Definition load_camels_attributes (data_dir : DataDir)
  (basins : list string) : result (DataFrame string attr) :=
  match camels_attributes_v2_0 data_dir with
  | None =>
      Raise (RuntimeError
               ("Attribute folder not found at " +:+ data_dir_path data_dir
                +:+ "/CAMELS_US/camels_attributes_v2.0"))
  | Some dfs =>
      df ← concat_axis1 union_labels dfs;
      huc_02 ← get_column "huc_02" df;
      let df :=
        setitem "huc"
          ((λ p, (p.1, AStr (Str.zfill 2 (py_str p.2)))) <$> huc_02) df in
      drop_column "huc_02" df
  end.

Definition load_camels_hydroatlas (data_dir : DataDir)
  (basins : list string)
  : result (DataFrame string attr * DataFrame string attr) :=
  let hydroatlas_path := data_dir_path data_dir +:+
    "/CAMELS_US/hydroATLAS/hydroATLAS_Camels/camels_hydroatlas.csv" in
  let hydroatlas_pca_path := data_dir_path data_dir +:+
    "/CAMELS_US/hydroATLAS/hydroATLAS_Camels/camels_hydroatlas_pca_transformed_all.csv" in
  match camels_hydroatlas_csv data_dir with
  | None => Raise (RuntimeError ("File not found at " +:+ hydroatlas_path))
  | Some hydroatlas_df =>
      match camels_hydroatlas_pca_transformed_all_csv data_dir with
      | None =>
          Raise (RuntimeError ("File not found at " +:+ hydroatlas_pca_path))
      | Some hydroatlas_pca_df =>
          Ok (filter_isin basins hydroatlas_df,
              filter_isin basins hydroatlas_pca_df)
      end
  end.

Definition add_hydroatlas_attributes_to_camels
  (df hydroatlas_df hydroatlas_pca_df : DataFrame string attr)
  : result (DataFrame string attr) :=
  df ← join_left df hydroatlas_df;
  join_left df hydroatlas_pca_df.

(** The table [load_all_attributes] has joined before it looks at the
    requested basins. *)
Definition joined_attributes (data_dir : DataDir) (basins : list string)
  : result (DataFrame string attr) :=
  let list_671_camels_basins :=
    read_basin_list (list_671_camels_basins_txt data_dir) in
  let list_colorado_hydroatlas_basins :=
    read_basin_list (list_colorado_hydroatlas_basins_txt data_dir) in
  let camels_basins :=
    filter (λ b, b ∈ list_671_camels_basins) basins in
  let hydroatlas_basins :=
    filter (λ b, b ∈ list_colorado_hydroatlas_basins) basins in
  df ← load_camels_attributes data_dir camels_basins;
  '(camels_hydroatlas_df, camels_hydroatlas_pca_df) ←
    load_camels_hydroatlas data_dir camels_basins;
  add_hydroatlas_attributes_to_camels df camels_hydroatlas_df
    camels_hydroatlas_pca_df.

Definition load_all_attributes (data_dir : DataDir) (basins : list string)
  : result (DataFrame string attr) :=
  df ← joined_attributes data_dir basins;
  (* Filtering by basins if the list is not empty *)
  match basins with
  | [] => Ok df
  | _ =>
      if existsb (λ b, bool_decide (b ∉ index df)) basins
      then Raise (ValueError "Some basins are missing static attributes.")
      else loc_list basins df
  end.

End attributes.

(** ** Forcings and discharge *)

Definition d_2014_12_31 : date := Eval cbv in days_from_civil 2014 12 31.
Definition d_1999_10_01 : date := Eval cbv in days_from_civil 1999 10 1.
Definition d_2000_10_01 : date := Eval cbv in days_from_civil 2000 10 1.

(** [forcing_path.glob(f'**/{basin_id}_*_forcing_leap.txt')]: the files of
    the product folder whose name fits, in the order [glob] walks them. *)
Definition forcing_candidates (basin_id : string) (files : list ForcingFile)
  : list ForcingFile :=
  List.filter
    (λ f, Str.fnmatch_star (basin_id +:+ "_") "_forcing_leap.txt" (ff_name f))
    files.

(** [discharge_path.glob(f'**/{basin}_streamflow_qc.txt')] *)
Definition discharge_candidates (data_dir : DataDir) (basin : string)
  : list StreamflowFile :=
  List.filter
    (λ f, String.eqb (sf_name f) (basin +:+ "_streamflow_qc.txt"))
    (usgs_streamflow data_dir).

Definition load_camels_daily_forcings (data_dir : DataDir)
  (basin_id forcings : string) : result (DataFrame date float * Z) :=
  let forcing_path := data_dir_path data_dir +:+
    "/CAMELS_US/basin_mean_forcing/" +:+ forcings in
  match assoc forcings (basin_mean_forcing data_dir) with
  | None => Raise (OSError (forcing_path +:+ " does not exist"))
  | Some files =>
      let file_path := forcing_candidates basin_id files in
      match file_path with
      | f :: _ => Ok (ff_body f, ff_area f)
      | [] =>
          Raise (FileNotFoundError
                   ("No file for Basin " +:+ basin_id +:+ " at []"))
      end
  end.

Definition load_all_discharge (data_dir : DataDir) (basin : string)
  (area : Z) : result (Series date float) :=
  let file_path := discharge_candidates data_dir basin in
  match file_path with
  | f :: _ =>
      (* normalize discharge from cubic feet per second to mm per day *)
      Ok ((λ p, (p.1,
                 (28316846.592 * p.2 * 86400 / float_of_Z (area * 10 ^ 6))
                 %float))
            <$> sf_QObs f)
  | [] =>
      Raise (FileNotFoundError ("No file for Basin " +:+ basin +:+ " at []"))
  end.

(** One pass of [load_and_add_SWE_data_to_forcing]; the function runs the
    same lines twice, on two files.  [swe_csv] is the file (absent when
    [swe_path.exists()] fails), [src] the column read from it, [dst] the
    column written, [start] the date the table is cut to afterwards. *)
Definition swe_assign (swe_csv : option (DataFrame date float))
  (swe_path src dst : string) (df : DataFrame date float)
  : result (DataFrame date float) :=
  match swe_csv with
  | None => Raise (OSError (swe_path +:+ " does not exist"))
  | Some df_swe =>
      let df_swe := loc_upto d_2014_12_31 df_swe in
      ser ← get_column src df_swe;
      loc_setitem (index df_swe) dst ser df
  end.

Definition swe_pass (swe_csv : option (DataFrame date float))
  (swe_path src dst : string) (start : date) (df : DataFrame date float)
  : result (DataFrame date float) :=
  df ← swe_assign swe_csv swe_path src dst df;
  Ok (loc_from start df).

Definition load_and_add_SWE_data_to_forcing (data_dir : DataDir)
  (df : DataFrame date float) (basin : string)
  : result (DataFrame date float) :=
  df ← swe_pass (co_camels_stats_all_years_20230814_csv data_dir)
         (data_dir_path data_dir +:+
          "/CAMELS_US/colorado_swe/co_camels_stats_all_years_20230814.csv")
         ("sum_" +:+ Str.tail basin) "co_swe_ua" d_1999_10_01 df;
  swe_pass (co_camels_snotel_time_series_csv data_dir)
    (data_dir_path data_dir +:+
     "/CAMELS_US/colorado_swe/co_camels_snotel_time_series.csv")
    (Str.tail basin) "co_swe_snotel" d_2000_10_01 df.

Definition load_hydroatlas12_daily_forcing (data_dir : DataDir)
  (basin : string) : result (DataFrame date float) :=
  apcpsfc ← select_rename basin "apcpsfc"
              (hydroatlas_co_apcpsfc_qc_daily_csv data_dir);
  dswrfsfc ← select_rename basin "dswrfsfc"
               (hydroatlas_co_dswrfsfc_qc_daily_csv data_dir);
  pressfc ← select_rename basin "pressfc"
              (hydroatlas_co_pressfc_qc_daily_csv data_dir);
  tmp2m_max ← select_rename basin "tmp2m_max"
                (hydroatlas_co_tmp2m_max_qc_daily_csv data_dir);
  tmp2m_min ← select_rename basin "tmp2m_min"
                (hydroatlas_co_tmp2m_min_qc_daily_csv data_dir);
  combined_df ← concat_axis1 union_dates
                  [apcpsfc; dswrfsfc; pressfc; tmp2m_max; tmp2m_min];
  start ← py_min (index combined_df);
  stop ← py_max (index combined_df);
  Ok (reindex (date_range start stop) combined_df).

Definition load_basin_forcings (data_dir : DataDir)
  (basin_id forcings : string) : result (DataFrame date float * Z) :=
  let list_671_camels_basins :=
    read_basin_list (list_671_camels_basins_txt data_dir) in
  let list_colorado_hydroatlas_basins :=
    read_basin_list (list_colorado_hydroatlas_basins_txt data_dir) in
  if bool_decide (basin_id ∈ list_671_camels_basins) then
    '(df, area) ← load_camels_daily_forcings data_dir basin_id forcings;
    df ← load_and_add_SWE_data_to_forcing data_dir df basin_id;
    Ok (df, area)
  else if bool_decide (basin_id ∈ list_colorado_hydroatlas_basins) then
    df ← load_hydroatlas12_daily_forcing data_dir basin_id;
    Ok (df, 1)
  else
    Raise (RuntimeError "Basin ID not found in either CAMELS Nor HydroAtlas").

(** ** The data set class *)

Record Config : Type := mkConfig {
  cfg_data_dir : DataDir;
  cfg_forcings : list string;
  cfg_target_variables : list string
}.

(** The loop over [cfg.forcings]: the tables loaded so far and the area of
    the last one. *)
Fixpoint load_forcings (cfg : Config) (basin : string) (todo : list string)
  (dfs : list (DataFrame date float)) (area : option Z)
  : result (list (DataFrame date float) * option Z) :=
  match todo with
  | [] => Ok (dfs, area)
  | forcing :: todo =>
      '(df, area) ← load_basin_forcings (cfg_data_dir cfg) basin forcing;
      let df :=
        if (1 <? length (cfg_forcings cfg))%nat
        then rename_columns (λ col, col +:+ "_" +:+ forcing) df
        else df in
      load_forcings cfg basin todo (dfs ++ [df]) (Some area)
  end.

(** What [df.loc[df[col] < 0, col] = np.nan] does to one cell of [col]. *)
Definition nan_if_negative (v : float) : float :=
  if (v <? 0)%float then nan else v.

(** [df.loc[df[col] < 0, col] = np.nan] *)
Definition mask_negative (col : string) (df : DataFrame date float)
  : DataFrame date float :=
  match col_pos col (columns df) with
  | Some j =>
      mkDataFrame (columns df)
        ((λ r, (r.1, alter nan_if_negative j r.2)) <$> rows df)
  | None => df
  end.

Definition is_qobs (col : string) : bool :=
  Str.contains "qobs" (Str.lower col).

(** The table [_load_basin_data] has assembled before it replaces the
    invalid discharge values. *)
Definition assemble_basin_data (cfg : Config) (basin : string)
  : result (DataFrame date float) :=
  '(dfs, area) ← load_forcings cfg basin (cfg_forcings cfg) [] None;
  df ← concat_axis1 union_dates dfs;
  if bool_decide ("QObs(mm/d)" ∈ cfg_target_variables cfg) then
    match area with
    | Some area =>
        q ← load_all_discharge (cfg_data_dir cfg) basin area;
        Ok (setitem "QObs(mm/d)" q df)
    | None => Raise (NameError "name 'area' is not defined")
    end
  else Ok df.

Definition _load_basin_data (cfg : Config) (basin : string)
  : result (DataFrame date float) :=
  df ← assemble_basin_data cfg basin;
  let qobs_cols := List.filter is_qobs (columns df) in
  Ok (foldl (λ df col, mask_negative col df) df qobs_cols).

Definition _load_attributes (str_float : float → string) (cfg : Config)
  (basins : list string) : result (DataFrame string attr) :=
  load_all_attributes str_float (cfg_data_dir cfg) basins.

(** ** A small data directory

    One CAMELS basin in Colorado, 09034900, with a daymet forcing file over
    2000-09-29 .. 2000-10-03, and one HydroAtlas basin, 1020000010; the
    HydroAtlas list and files name 09034900 as well. *)

Module Fixture.

Definition day (n : Z) : date := d_2000_10_01 + n.

Definition forcing_09034900 : ForcingFile :=
  mkForcingFile "09034900_lump_cida_forcing_leap.txt" 500
    (mkDataFrame ["prcp(mm/day)"; "tmax(C)"]
       [(day (-2), [0; 11]%float); (day (-1), [1.5; 12]%float);
        (day 0, [0; 9.5]%float); (day 1, [3; 8]%float);
        (day 2, [0; (-1)]%float)]).

Definition forcing_other : ForcingFile :=
  mkForcingFile "09034900_lump_other_forcing_leap.txt" 77
    (mkDataFrame ["prcp(mm/day)"] [(day 0, [7]%float)]).

Definition streamflow_09034900 : StreamflowFile :=
  mkStreamflowFile "09034900_streamflow_qc.txt"
    [(day 0, 1000%float); (day 1, (-999)%float); (day 2, 0%float)].

Definition swe_ua : DataFrame date float :=
  mkDataFrame ["sum_9034900"; "sum_9035900"]
    [(day (-1), [10; 0]%float); (day 0, [20; 0]%float);
     (day 1, [30; 0]%float)].

Definition swe_snotel : DataFrame date float :=
  mkDataFrame ["9034900"]
    [(day 0, [5]%float); (day 2, [6]%float)].

(** Like [swe_ua], with a row two days before the forcing file starts. *)
Definition swe_ua_early : DataFrame date float :=
  mkDataFrame ["sum_9034900"]
    [(day (-4), [1]%float); (day 0, [20]%float)].

Definition hydro (v : float) (days : list Z) : DataFrame date float :=
  mkDataFrame ["1020000010"; "09034900"]
    ((λ n, (day n, [v; 0%float])) <$> days).

Definition attributes_name : DataFrame string attr :=
  mkDataFrame ["huc_02"; "gauge_name"]
    [("09034900", [AInt 14; AStr "BOBTAIL CREEK"]);
     ("01013500", [AInt 1; AStr "FISH RIVER"])].

Definition attributes_clim : DataFrame string attr :=
  mkDataFrame ["p_mean"]
    [("01013500", [AFloat 3.1]); ("09034900", [AFloat 2.4])].

Definition hydroatlas : DataFrame string attr :=
  mkDataFrame ["ele_mt_sav"]
    [("09034900", [AInt 3400]); ("01013500", [AInt 250])].

Definition hydroatlas_pca : DataFrame string attr :=
  mkDataFrame ["PC1"] [("09034900", [AFloat 0.25])].

Definition data_dir : DataDir := {|
  data_dir_path := "/data";
  list_671_camels_basins_txt :=
    ["01013500" +:+ Str.newline; "09034900" +:+ Str.newline];
  list_colorado_hydroatlas_basins_txt :=
    ["1020000010" +:+ Str.newline; "09034900" +:+ Str.newline];
  basin_mean_forcing :=
    [("daymet", [forcing_09034900; forcing_other])];
  usgs_streamflow := [streamflow_09034900];
  co_camels_stats_all_years_20230814_csv := Some swe_ua;
  co_camels_snotel_time_series_csv := Some swe_snotel;
  hydroatlas_co_apcpsfc_qc_daily_csv := hydro 1 [0; 1; 3];
  hydroatlas_co_dswrfsfc_qc_daily_csv := hydro 2 [0; 1; 3];
  hydroatlas_co_pressfc_qc_daily_csv := hydro 3 [1; 3];
  hydroatlas_co_tmp2m_max_qc_daily_csv := hydro 4 [0; 1; 3; 4];
  hydroatlas_co_tmp2m_min_qc_daily_csv := hydro 5 [0; 1; 3];
  camels_attributes_v2_0 := Some [attributes_name; attributes_clim];
  camels_hydroatlas_csv := Some hydroatlas;
  camels_hydroatlas_pca_transformed_all_csv := Some hydroatlas_pca
|}.

(** The same directory with the early SWE file. *)
Definition data_dir_early : DataDir := {|
  data_dir_path := "/data";
  list_671_camels_basins_txt := list_671_camels_basins_txt data_dir;
  list_colorado_hydroatlas_basins_txt :=
    list_colorado_hydroatlas_basins_txt data_dir;
  basin_mean_forcing := basin_mean_forcing data_dir;
  usgs_streamflow := usgs_streamflow data_dir;
  co_camels_stats_all_years_20230814_csv := Some swe_ua_early;
  co_camels_snotel_time_series_csv := Some swe_snotel;
  hydroatlas_co_apcpsfc_qc_daily_csv := hydro 1 [0; 1; 3];
  hydroatlas_co_dswrfsfc_qc_daily_csv := hydro 2 [0; 1; 3];
  hydroatlas_co_pressfc_qc_daily_csv := hydro 3 [1; 3];
  hydroatlas_co_tmp2m_max_qc_daily_csv := hydro 4 [0; 1; 3; 4];
  hydroatlas_co_tmp2m_min_qc_daily_csv := hydro 5 [0; 1; 3];
  camels_attributes_v2_0 := camels_attributes_v2_0 data_dir;
  camels_hydroatlas_csv := camels_hydroatlas_csv data_dir;
  camels_hydroatlas_pca_transformed_all_csv :=
    camels_hydroatlas_pca_transformed_all_csv data_dir
|}.

Definition cfg : Config :=
  mkConfig data_dir ["daymet"] ["QObs(mm/d)"].

Definition str_float (x : float) : string := "nan".

End Fixture.

(** ** The list of the basins outside Colorado

    [make_list_of_basins_exlcuding_colorado.py] reads two basin lists with
    [file.read().splitlines()], takes the set difference and writes it in
    sorted order, a basin a line.  The two files are given by their lines. *)

Module ExcludingColorado.

(** Python orders strings by code point. *)
Definition str_le (a b : string) : Prop := Is_true (String.leb a b).

#[global] Instance str_le_dec (a b : string) : Decision (str_le a b) := _.

(** [sorted(list_671_camels_basins - co_basins)], both being sets. *)
Definition exclusive_basins (co_basins list_671_camels_basins : list string)
  : list string :=
  merge_sort str_le
    (list_difference (remove_dups list_671_camels_basins)
       (remove_dups co_basins)).


End ExcludingColorado.

(** ** More data directories

    Variations of [Fixture.data_dir]. *)

Module Fixture2.

(** A CAMELS basin outside Colorado: it has a forcing file and no column in
    the SWE files. *)
Definition forcing_01013500 : ForcingFile :=
  mkForcingFile "01013500_lump_cida_forcing_leap.txt" 2252
    (mkDataFrame ["prcp(mm/day)"]
       [(Fixture.day 0, [1]%float); (Fixture.day 1, [2]%float)]).

(** A second forcing product for 09034900, with another area. *)
Definition forcing_nldas : ForcingFile :=
  mkForcingFile "09034900_lump_nldas_forcing_leap.txt" 777
    (mkDataFrame ["PRCP(mm/day)"]
       [(Fixture.day (-1), [4]%float); (Fixture.day 0, [5]%float);
        (Fixture.day 1, [6]%float); (Fixture.day 2, [7]%float)]).

(** A station file with a day before 1999-10-01. *)
Definition swe_snotel_1999 : DataFrame date float :=
  mkDataFrame ["9034900"]
    [(d_1999_10_01 - 1, [5]%float); (Fixture.day 0, [6]%float)].

Definition forcing_long : DataFrame date float :=
  mkDataFrame ["prcp(mm/day)"]
    [(d_1999_10_01 - 1, [0]%float); (Fixture.day (-1), [1]%float);
     (Fixture.day 0, [2]%float); (Fixture.day 1, [3]%float);
     (Fixture.day 2, [4]%float)].

Definition with_files (forcing : list (string * list ForcingFile))
  (snotel : option (DataFrame date float)) : DataDir := {|
  data_dir_path := "/data";
  list_671_camels_basins_txt :=
    list_671_camels_basins_txt Fixture.data_dir;
  list_colorado_hydroatlas_basins_txt :=
    ["1020000010" +:+ Str.newline];
  basin_mean_forcing := forcing;
  usgs_streamflow := usgs_streamflow Fixture.data_dir;
  co_camels_stats_all_years_20230814_csv := Some Fixture.swe_ua;
  co_camels_snotel_time_series_csv := snotel;
  hydroatlas_co_apcpsfc_qc_daily_csv := Fixture.hydro 1 [0; 1; 3];
  hydroatlas_co_dswrfsfc_qc_daily_csv := Fixture.hydro 2 [0; 1; 3];
  hydroatlas_co_pressfc_qc_daily_csv := Fixture.hydro 3 [1; 3];
  hydroatlas_co_tmp2m_max_qc_daily_csv := Fixture.hydro 4 [0; 1; 3; 4];
  hydroatlas_co_tmp2m_min_qc_daily_csv := Fixture.hydro 5 [0; 1; 3];
  camels_attributes_v2_0 := camels_attributes_v2_0 Fixture.data_dir;
  camels_hydroatlas_csv := camels_hydroatlas_csv Fixture.data_dir;
  camels_hydroatlas_pca_transformed_all_csv :=
    camels_hydroatlas_pca_transformed_all_csv Fixture.data_dir
|}.

(** [Fixture.data_dir] with another attribute folder. *)
Definition with_attributes
  (attributes : option (list (DataFrame string attr))) : DataDir := {|
  data_dir_path := "/data";
  list_671_camels_basins_txt :=
    list_671_camels_basins_txt Fixture.data_dir;
  list_colorado_hydroatlas_basins_txt :=
    list_colorado_hydroatlas_basins_txt Fixture.data_dir;
  basin_mean_forcing := basin_mean_forcing Fixture.data_dir;
  usgs_streamflow := usgs_streamflow Fixture.data_dir;
  co_camels_stats_all_years_20230814_csv := Some Fixture.swe_ua;
  co_camels_snotel_time_series_csv := Some Fixture.swe_snotel;
  hydroatlas_co_apcpsfc_qc_daily_csv := Fixture.hydro 1 [0; 1; 3];
  hydroatlas_co_dswrfsfc_qc_daily_csv := Fixture.hydro 2 [0; 1; 3];
  hydroatlas_co_pressfc_qc_daily_csv := Fixture.hydro 3 [1; 3];
  hydroatlas_co_tmp2m_max_qc_daily_csv := Fixture.hydro 4 [0; 1; 3; 4];
  hydroatlas_co_tmp2m_min_qc_daily_csv := Fixture.hydro 5 [0; 1; 3];
  camels_attributes_v2_0 := attributes;
  camels_hydroatlas_csv := camels_hydroatlas_csv Fixture.data_dir;
  camels_hydroatlas_pca_transformed_all_csv :=
    camels_hydroatlas_pca_transformed_all_csv Fixture.data_dir
|}.

(** [Fixture.data_dir] with other streamflow files and the same table in
    each of the five HydroAtlas files. *)
Definition with_streamflow (streamflow : list StreamflowFile)
  (hydro : DataFrame date float) : DataDir := {|
  data_dir_path := "/data";
  list_671_camels_basins_txt :=
    list_671_camels_basins_txt Fixture.data_dir;
  list_colorado_hydroatlas_basins_txt :=
    list_colorado_hydroatlas_basins_txt Fixture.data_dir;
  basin_mean_forcing := basin_mean_forcing Fixture.data_dir;
  usgs_streamflow := streamflow;
  co_camels_stats_all_years_20230814_csv := Some Fixture.swe_ua;
  co_camels_snotel_time_series_csv := Some Fixture.swe_snotel;
  hydroatlas_co_apcpsfc_qc_daily_csv := hydro;
  hydroatlas_co_dswrfsfc_qc_daily_csv := hydro;
  hydroatlas_co_pressfc_qc_daily_csv := hydro;
  hydroatlas_co_tmp2m_max_qc_daily_csv := hydro;
  hydroatlas_co_tmp2m_min_qc_daily_csv := hydro;
  camels_attributes_v2_0 := camels_attributes_v2_0 Fixture.data_dir;
  camels_hydroatlas_csv := camels_hydroatlas_csv Fixture.data_dir;
  camels_hydroatlas_pca_transformed_all_csv :=
    camels_hydroatlas_pca_transformed_all_csv Fixture.data_dir
|}.

(** A streamflow file with a missing value. *)
Definition streamflow_gap : StreamflowFile :=
  mkStreamflowFile "09034900_streamflow_qc.txt"
    [(Fixture.day 0, 12.5%float); (Fixture.day 1, nan);
     (Fixture.day 2, 11%float)].

Definition data_dir : DataDir :=
  with_files
    [("daymet", [Fixture.forcing_09034900; forcing_01013500]);
     ("nldas", [forcing_nldas])]
    (Some Fixture.swe_snotel).

Definition cfg_two : Config :=
  mkConfig data_dir ["daymet"; "nldas"] ["QObs(mm/d)"].

(** The table of 09034900 under [Fixture.cfg] and under [cfg_two]. *)
Definition basin_table : DataFrame date float :=
  Eval vm_compute in
    match _load_basin_data Fixture.cfg "09034900" with
    | Ok df => df
    | Raise _ => mkDataFrame [] []
    end.

Definition attributes_or_empty (r : result (DataFrame string attr))
  : DataFrame string attr :=
  match r with
  | Ok df => df
  | Raise _ => mkDataFrame [] []
  end.

(** The attribute tables of [Fixture.data_dir]. *)
Definition primary_table : DataFrame string attr :=
  Eval vm_compute in
    attributes_or_empty
      (load_camels_attributes Fixture.str_float Fixture.data_dir []).


Definition all_attributes : DataFrame string attr :=
  Eval vm_compute in
    attributes_or_empty
      (load_all_attributes Fixture.str_float Fixture.data_dir []).

Definition attributes_01013500 : DataFrame string attr :=
  Eval vm_compute in
    attributes_or_empty
      (load_all_attributes Fixture.str_float Fixture.data_dir ["01013500"]).

Definition basin_table_two : DataFrame date float :=
  Eval vm_compute in
    match _load_basin_data cfg_two "09034900" with
    | Ok df => df
    | Raise _ => mkDataFrame [] []
    end.

End Fixture2.

(** * Properties *)

(** ** The helpers on concrete values *)

Example days_from_civil_epoch :
  days_from_civil 1970 1 1 = 0 ∧ days_from_civil 2000 2 29 = 11016
  ∧ days_from_civil 2000 3 1 = 11017.
Proof. by split_and!. Qed.

Example cutoff_dates :
  d_1999_10_01 = 10865 ∧ d_2000_10_01 = 11231 ∧ d_2014_12_31 = 16435
  ∧ d_2000_10_01 - d_1999_10_01 = 366.
Proof. by split_and!. Qed.

Example read_basin_list_strips :
  read_basin_list ["01013500" +:+ Str.newline; "09034900  "; "09035900"] =
    ["01013500"; "09034900"; "09035900"].
Proof. reflexivity. Qed.

Example is_qobs_any_case :
  is_qobs "QObs(mm/d)" = true ∧ is_qobs "qobs_daymet" = true
  ∧ is_qobs "my_QOBS" = true ∧ is_qobs "prcp(mm/day)" = false
  ∧ is_qobs "q_obs" = false.
Proof. by split_and!. Qed.

Example forcing_file_names :
  Str.fnmatch_star "01013500_" "_forcing_leap.txt"
    "01013500_lump_cida_forcing_leap.txt" = true
  ∧ Str.fnmatch_star "01013500_" "_forcing_leap.txt"
      "01013500_forcing_leap.txt" = false
  ∧ Str.fnmatch_star "01013500_" "_forcing_leap.txt"
      "11013500_lump_cida_forcing_leap.txt" = false.
Proof. by split_and!. Qed.

Example zfill_huc :
  Str.zfill 2 (pretty 1) = "01" ∧ Str.zfill 2 (pretty 14) = "14".
Proof. by split_and!. Qed.

(** ** The result monad *)

Lemma bind_Ok {A B} (m : result A) (k : A → result B) (b : B) :
  m ≫= k = Ok b ↔ ∃ a, m = Ok a ∧ k a = Ok b.
Proof.
  destruct m as [a|e]; simpl; split.
  - intros Hk. by exists a.
  - by intros (a' & [= <-] & Hk).
  - discriminate.
  - by intros (a' & [=] & _).
Qed.

Lemma bind_Raise {A B} (m : result A) (k : A → result B) (e : exn) :
  m ≫= k = Raise e ↔ m = Raise e ∨ ∃ a, m = Ok a ∧ k a = Raise e.
Proof.
  destruct m as [a|e']; simpl; split.
  - intros Hk. right. by exists a.
  - intros [[=]|(a' & [= <-] & Hk)]. done.
  - intros [= <-]. by left.
  - intros [[= <-]|(a' & [=] & _)]. done.
Qed.

(** ** Discharge *)

(** C1.  Every value [load_all_discharge] returns is the value of the
    streamflow file at the same place and date, in cubic feet per second,
    turned into millimetres per day by
    [28316846.592 * flow_cfs * 86400 / (area * 10**6)], computed in binary64.
    With an area of 500 a flow of 1000 gives
    [28316846.592*1000*86400/(500*1e6)]. *)
Theorem load_all_discharge_conversion (data_dir : DataDir) (basin : string)
  (area : Z) (q : Series date float) :
  load_all_discharge data_dir basin area = Ok q →
  ∃ f, f ∈ usgs_streamflow data_dir
     ∧ sf_name f = basin +:+ "_streamflow_qc.txt"
     ∧ q.*1 = (sf_QObs f).*1
     ∧ (∀ (i : nat) (d : date) (flow_cfs : float),
          sf_QObs f !! i = Some (d, flow_cfs) →
          q !! i =
            Some (d, (28316846.592 * flow_cfs * 86400
                      / float_of_Z (area * 10 ^ 6))%float))
     ∧ (area = 500 →
        ∀ (i : nat) (d : date),
          sf_QObs f !! i = Some (d, 1000%float) →
          q !! i =
            Some (d, (28316846.592 * 1000 * 86400 / (500 * 1e6))%float)).
Proof.
  unfold load_all_discharge. intros Hq.
  destruct (discharge_candidates _ _) as [|f rest] eqn:Hglob; [discriminate|].
  injection Hq as <-.
  assert (Hf : In f (f :: rest)) by by left.
  rewrite <- Hglob in Hf. apply filter_In in Hf as [Hin Hname].
  exists f. split_and!.
  - by apply list_elem_of_In.
  - by apply String.eqb_eq.
  - rewrite <- list_fmap_compose. done.
  - intros i d flow_cfs Hi. rewrite list_lookup_fmap, Hi. done.
  - intros -> i d Hi. rewrite list_lookup_fmap, Hi. simpl.
    do 2 f_equal.
Qed.

Lemma load_all_discharge_conversion_witness :
  ∃ q, load_all_discharge Fixture.data_dir "09034900" 500 = Ok q
     ∧ q !! 0%nat =
         Some (Fixture.day 0,
               (28316846.592 * 1000 * 86400 / (500 * 1e6))%float).
Proof.
  eexists. split; [reflexivity|].
  destruct (load_all_discharge_conversion Fixture.data_dir "09034900" 500 _
              eq_refl) as (f & Hin & _ & _ & _ & H500).
  apply list_elem_of_singleton in Hin as ->.
  exact (H500 eq_refl 0%nat (Fixture.day 0) eq_refl).
Defined.

(** ** Locating the files *)

(** C6.  [load_camels_daily_forcings] raises [OSError] when the product
    folder is missing, [FileNotFoundError] when the folder holds no file for
    the basin, and otherwise returns the table and area of the first file
    found, whatever else matches.  [load_all_discharge] raises
    [FileNotFoundError] when no streamflow file matches. *)
Theorem file_lookup_policy (data_dir : DataDir) (basin_id forcings : string) :
  (assoc forcings (basin_mean_forcing data_dir) = None →
   load_camels_daily_forcings data_dir basin_id forcings =
     Raise (OSError ((data_dir_path data_dir
                      +:+ "/CAMELS_US/basin_mean_forcing/" +:+ forcings)
                     +:+ " does not exist")))
  ∧ (∀ files,
       assoc forcings (basin_mean_forcing data_dir) = Some files →
       forcing_candidates basin_id files = [] →
       load_camels_daily_forcings data_dir basin_id forcings =
         Raise (FileNotFoundError
                  ("No file for Basin " +:+ basin_id +:+ " at []")))
  ∧ (∀ files f others,
       assoc forcings (basin_mean_forcing data_dir) = Some files →
       forcing_candidates basin_id files = f :: others →
       load_camels_daily_forcings data_dir basin_id forcings =
         Ok (ff_body f, ff_area f))
  ∧ (∀ area,
       discharge_candidates data_dir basin_id = [] →
       load_all_discharge data_dir basin_id area =
         Raise (FileNotFoundError
                  ("No file for Basin " +:+ basin_id +:+ " at []"))).
Proof.
  unfold load_camels_daily_forcings, load_all_discharge.
  split_and!.
  - by intros ->.
  - by intros files -> ->.
  - by intros files f others -> ->.
  - by intros area ->.
Qed.

Lemma file_lookup_policy_witness :
  load_camels_daily_forcings Fixture.data_dir "09034900" "nldas" =
    Raise (OSError "/data/CAMELS_US/basin_mean_forcing/nldas does not exist")
  ∧ load_camels_daily_forcings Fixture.data_dir "01013500" "daymet" =
      Raise (FileNotFoundError "No file for Basin 01013500 at []")
  ∧ load_camels_daily_forcings Fixture.data_dir "09034900" "daymet" =
      Ok (ff_body Fixture.forcing_09034900, 500)
  ∧ load_all_discharge Fixture.data_dir "01013500" 500 =
      Raise (FileNotFoundError "No file for Basin 01013500 at []").
Proof.
  split_and!.
  - exact (proj1 (file_lookup_policy Fixture.data_dir "09034900" "nldas")
             eq_refl).
  - exact (proj1 (proj2
             (file_lookup_policy Fixture.data_dir "01013500" "daymet"))
             _ eq_refl eq_refl).
  - exact (proj1 (proj2 (proj2
             (file_lookup_policy Fixture.data_dir "09034900" "daymet")))
             _ Fixture.forcing_09034900 [Fixture.forcing_other]
             eq_refl eq_refl).
  - exact (proj2 (proj2 (proj2
             (file_lookup_policy Fixture.data_dir "01013500" "daymet")))
             500 eq_refl).
Defined.

(** ** Choosing the source of a basin *)

(** C4.  A basin that is in neither basin list makes [load_basin_forcings]
    raise the "not found in either" [RuntimeError]; no table is returned. *)
Theorem load_basin_forcings_unknown_basin (data_dir : DataDir)
  (basin_id forcings : string) :
  basin_id ∉ read_basin_list (list_671_camels_basins_txt data_dir) →
  basin_id ∉ read_basin_list (list_colorado_hydroatlas_basins_txt data_dir) →
  load_basin_forcings data_dir basin_id forcings =
    Raise (RuntimeError "Basin ID not found in either CAMELS Nor HydroAtlas").
Proof.
  intros Hcamels Hhydro. unfold load_basin_forcings.
  by rewrite !bool_decide_eq_false_2.
Qed.

Lemma load_basin_forcings_unknown_basin_witness :
  load_basin_forcings Fixture.data_dir "12345678" "daymet" =
    Raise (RuntimeError "Basin ID not found in either CAMELS Nor HydroAtlas").
Proof.
  apply load_basin_forcings_unknown_basin;
    apply (bool_decide_unpack _); exact I.
Defined.

(** C9.  A basin that is in both basin lists is loaded from CAMELS: the
    forcing file gives the table and the area, the SWE columns are added,
    and [load_hydroatlas12_daily_forcing] plays no part, whether or not the
    CAMELS path succeeds. *)
Theorem load_basin_forcings_camels_first (data_dir : DataDir)
  (basin_id forcings : string) :
  basin_id ∈ read_basin_list (list_671_camels_basins_txt data_dir) →
  basin_id ∈ read_basin_list (list_colorado_hydroatlas_basins_txt data_dir) →
  load_basin_forcings data_dir basin_id forcings =
    ('(df, area) ← load_camels_daily_forcings data_dir basin_id forcings;
     df ← load_and_add_SWE_data_to_forcing data_dir df basin_id;
     Ok (df, area))
  ∧ ∀ df area,
      load_basin_forcings data_dir basin_id forcings = Ok (df, area) →
      ∃ files f others df0,
        assoc forcings (basin_mean_forcing data_dir) = Some files
        ∧ forcing_candidates basin_id files = f :: others
        ∧ area = ff_area f
        ∧ df0 = ff_body f
        ∧ load_and_add_SWE_data_to_forcing data_dir df0 basin_id = Ok df.
Proof.
  intros Hcamels _. unfold load_basin_forcings.
  rewrite bool_decide_eq_true_2 by done. split; [done|].
  intros df area Hload.
  apply bind_Ok in Hload as ([df0 area0] & Hforcing & Hload).
  apply bind_Ok in Hload as (df' & Hswe & [= -> ->]).
  unfold load_camels_daily_forcings in Hforcing.
  destruct (assoc forcings _) as [files|] eqn:Hdir; [|discriminate].
  simpl in Hforcing.
  destruct (forcing_candidates basin_id files) as [|f others] eqn:Hglob;
    [discriminate|].
  injection Hforcing as <- <-.
  by exists files, f, others, (ff_body f).
Qed.

Lemma load_basin_forcings_camels_first_witness :
  ∃ df, load_basin_forcings Fixture.data_dir "09034900" "daymet" =
          Ok (df, 500)
      ∧ load_hydroatlas12_daily_forcing Fixture.data_dir "09034900" ≠ Ok df.
Proof.
  destruct (load_basin_forcings_camels_first Fixture.data_dir "09034900"
              "daymet") as [Heq _].
  - apply (bool_decide_unpack _). exact I.
  - apply (bool_decide_unpack _). exact I.
  - eexists. split; [rewrite Heq; reflexivity|].
    vm_compute. discriminate.
Defined.

(** ** Lookups by label *)

Section assoc_facts.
Context {K : Type} `{EqDecision K}.

Lemma assoc_None {A} (k : K) (l : list (K * A)) :
  assoc k l = None ↔ k ∉ l.*1.
Proof.
  induction l as [|[k' a] l IH]; simpl.
  - split; [intros _; apply not_elem_of_nil|done].
  - rewrite not_elem_of_cons. destruct (decide (k' = k)) as [->|Hne].
    + split; [done|]. by intros [? _].
    + rewrite IH. split; [by intros ?|by intros [_ ?]].
Qed.

Lemma assoc_is_Some {A} (k : K) (l : list (K * A)) :
  is_Some (assoc k l) ↔ k ∈ l.*1.
Proof.
  rewrite <- not_eq_None_Some, assoc_None.
  split; [apply dec_stable|]. by intros ? ?.
Qed.


Lemma assoc_fmap {A B} (f : A → B) (k : K) (l : list (K * A)) :
  assoc k ((λ p, (p.1, f p.2)) <$> l) = f <$> assoc k l.
Proof.
  induction l as [|[k' a] l IH]; simpl; [done|].
  by destruct (decide (k' = k)).
Qed.

Lemma assoc_tabulate {A} (f : K → A) (k : K) (keys : list K) :
  assoc k ((λ k', (k', f k')) <$> keys) =
    if decide (k ∈ keys) then Some (f k) else None.
Proof.
  induction keys as [|k' keys IH].
  - case_decide as Hin; [by apply elem_of_nil in Hin|done].
  - rewrite fmap_cons. cbn [assoc]. rewrite IH.
    destruct (decide (k' = k)) as [->|Hne].
    + rewrite decide_True; [done|by left].
    + destruct (decide (k ∈ keys)) as [Hin|Hnin].
      * rewrite decide_True; [done|by right].
      * rewrite decide_False; [done|].
        rewrite not_elem_of_cons. by split.
Qed.

End assoc_facts.

Lemma col_pos_None (c : string) (cols : list string) :
  col_pos c cols = None ↔ c ∉ cols.
Proof.
  induction cols as [|c' cols IH]; simpl.
  - split; [intros _; apply not_elem_of_nil|done].
  - rewrite not_elem_of_cons. destruct (decide (c' = c)) as [->|Hne].
    + split; [done|]. by intros [? _].
    + rewrite fmap_None, IH. split; [by intros ?|by intros [_ ?]].
Qed.

Lemma col_pos_Some (c : string) (cols : list string) (j : nat) :
  col_pos c cols = Some j → cols !! j = Some c.
Proof.
  revert j. induction cols as [|c' cols IH]; intros j; simpl; [done|].
  destruct (decide (c' = c)) as [->|Hne].
  - by intros [= <-].
  - intros Hj. apply fmap_Some in Hj as (j' & Hj' & ->). by apply IH.
Qed.

Lemma col_pos_lookup_NoDup (c : string) (cols : list string) (j : nat) :
  NoDup cols → cols !! j = Some c → col_pos c cols = Some j.
Proof.
  intros Hnd Hj.
  destruct (col_pos c cols) as [j'|] eqn:Hpos.
  - f_equal. apply col_pos_Some in Hpos. by eapply NoDup_lookup.
  - apply col_pos_None in Hpos. destruct Hpos.
    by eapply list_elem_of_lookup_2.
Qed.

(** ** Assigning by label *)

Section loc_setitem_facts.
Context {K V : Type} `{EqDecision K} `{Missing V}.

Lemma loc_setitem_missing (keys : list K) (c : string) (ser : Series K V)
  (df : DataFrame K V) (k : K) :
  k ∈ keys → k ∉ index df →
  loc_setitem keys c ser df = Raise (KeyError "labels not in index").
Proof.
  intros Hk Hnot. unfold loc_setitem.
  destruct (forallb _ keys) eqn:Hall; [|done].
  rewrite forallb_forall in Hall.
  apply list_elem_of_In, Hall, bool_decide_eq_true in Hk. done.
Qed.

Lemma loc_setitem_present (keys : list K) (c : string) (ser : Series K V)
  (df : DataFrame K V) :
  (∀ k, k ∈ keys → k ∈ index df) →
  ∃ out, loc_setitem keys c ser df = Ok out
       ∧ columns out = with_column c (columns df)
       ∧ rows out =
           (λ r, if bool_decide (r.1 ∈ keys)
                 then (r.1, put_cell (columns df) c
                              (default NA (assoc r.1 ser)) r.2)
                 else match col_pos c (columns df) with
                      | Some _ => r
                      | None => (r.1, r.2 ++ [NA])
                      end) <$> rows df.
Proof.
  intros Hall. unfold loc_setitem.
  destruct (forallb _ keys) eqn:Hb.
  - by eexists.
  - apply not_true_iff_false in Hb. destruct Hb.
    apply forallb_forall. intros k Hk.
    by apply bool_decide_eq_true, Hall, list_elem_of_In.
Qed.

Lemma loc_setitem_index (keys : list K) (c : string) (ser : Series K V)
  (df out : DataFrame K V) :
  loc_setitem keys c ser df = Ok out → index out = index df.
Proof.
  unfold loc_setitem. destruct (forallb _ keys); [|done].
  intros [= <-]. unfold index. simpl.
  rewrite <- list_fmap_compose. apply list_fmap_ext.
  intros i [k vals] _. simpl.
  destruct (bool_decide _); [done|]. by destruct (col_pos _ _).
Qed.

End loc_setitem_facts.

(** ** Label slices *)

Lemma drop_while_sorted (p : date → bool) (l : list date) :
  StronglySorted Z.le l → StronglySorted Z.le (drop_while p l).
Proof.
  induction l as [|x l IH]; simpl; [done|].
  intros Hs. destruct (p x); [|done].
  apply IH. by apply StronglySorted_inv in Hs as [? _].
Qed.

(** On a chronological index the rows from the bisection point on are the
    rows dated [lo] or later. *)
Lemma drop_while_filter_sorted (lo : date) (l : list date) :
  StronglySorted Z.le l →
  drop_while (λ d, d <? lo) l = filter (λ d, lo ≤ d) l.
Proof.
  induction l as [|x l IH]; simpl; [done|].
  intros Hs. apply StronglySorted_inv in Hs as [Hs Hall].
  destruct (Z.ltb_spec x lo) as [Hlt|Hge].
  - rewrite filter_cons_False by lia. by apply IH.
  - rewrite filter_cons_True by done. f_equal. symmetry.
    clear IH Hs. induction Hall as [|y l Hy Hall IH]; [done|].
    rewrite filter_cons_True by lia. by rewrite IH.
Qed.

Lemma loc_from_index {V} (lo : date) (df : DataFrame date V) :
  index (loc_from lo df) = drop_while (λ d, d <? lo) (index df).
Proof.
  unfold index, loc_from. simpl.
  induction (rows df) as [|[d vals] l IH]; simpl; [done|].
  by destruct (d <? lo).
Qed.

Lemma take_while_upper_bound {V} (hi : date) (l : list (date * list V)) :
  ∀ d, d ∈ (take_while (λ r, r.1 <=? hi) l).*1 → d ≤ hi.
Proof.
  induction l as [|[d0 vals] l IH]; simpl; intros d.
  - intros Hd. by apply elem_of_nil in Hd.
  - destruct (Z.leb_spec d0 hi) as [Hle|Hgt]; simpl.
    + rewrite elem_of_cons. intros [->|Hd]; [done|by apply IH].
    + intros Hd. by apply elem_of_nil in Hd.
Qed.

(** ** Snow water equivalent *)

Lemma swe_pass_Ok (swe_csv : option (DataFrame date float))
  (swe_path src dst : string) (start : date) (df out : DataFrame date float) :
  swe_pass swe_csv swe_path src dst start df = Ok out →
  ∃ mid, index mid = index df ∧ out = loc_from start mid.
Proof.
  unfold swe_pass, swe_assign. intros Hpass.
  apply bind_Ok in Hpass as (mid & Hmid & [= <-]).
  destruct swe_csv as [df_swe|]; [|discriminate].
  apply bind_Ok in Hmid as (ser & _ & Hset).
  exists mid. split; [|done]. by eapply loc_setitem_index.
Qed.

(** C2.  On a chronological forcing table, whatever date it starts at,
    the table [load_and_add_SWE_data_to_forcing] returns holds the dates of
    the forcing table from 2000-10-01 on and no other: none of its dates is
    earlier than 2000-10-01. *)
Theorem swe_enrichment_starts_2000_10_01 (data_dir : DataDir)
  (df out : DataFrame date float) (basin : string) :
  Sorted Z.le (index df) →
  load_and_add_SWE_data_to_forcing data_dir df basin = Ok out →
  index out = filter (λ d, days_from_civil 2000 10 1 ≤ d) (index df)
  ∧ ∀ d, d ∈ index out → days_from_civil 2000 10 1 ≤ d.
Proof.
  intros Hsorted Hload.
  apply Sorted_StronglySorted in Hsorted; [|intros x y z; lia].
  unfold load_and_add_SWE_data_to_forcing in Hload.
  apply bind_Ok in Hload as (df1 & Hpass1 & Hpass2).
  apply swe_pass_Ok in Hpass1 as (mid1 & Hidx1 & ->).
  apply swe_pass_Ok in Hpass2 as (mid2 & Hidx2 & ->).
  change (days_from_civil 2000 10 1) with d_2000_10_01.
  assert (Hidx : index (loc_from d_2000_10_01 mid2) =
                 filter (λ d, d_2000_10_01 ≤ d) (index df)).
  { rewrite loc_from_index, Hidx2, loc_from_index, Hidx1.
    rewrite !drop_while_filter_sorted; [|done|by apply drop_while_sorted].
    apply list_filter_filter_l. unfold d_2000_10_01, d_1999_10_01. lia. }
  split; [done|]. intros d. rewrite Hidx, list_elem_of_filter. by intros [? _].
Qed.

Lemma swe_enrichment_starts_2000_10_01_witness :
  ∃ out,
    load_and_add_SWE_data_to_forcing Fixture.data_dir
      (ff_body Fixture.forcing_09034900) "09034900" = Ok out
    ∧ index out = [Fixture.day 0; Fixture.day 1; Fixture.day 2]
    ∧ ∀ d, d ∈ index out → days_from_civil 2000 10 1 ≤ d.
Proof.
  eexists. split; [reflexivity|]. split; [reflexivity|].
  apply (swe_enrichment_starts_2000_10_01 Fixture.data_dir
           (ff_body Fixture.forcing_09034900) _ "09034900").
  - apply (bool_decide_unpack _). vm_compute. exact I.
  - reflexivity.
Defined.

(** C5, as the code has it.  A pass reads the basin's column [src] of the
    SWE file, a chronological table cut to the dates up to 2014-12-31, and
    writes it to the new column [dst] of the forcing table by date.  A date of the cut file
    that the forcing table lacks makes the assignment raise [KeyError].
    When the forcing table has them all (the dates of the file being
    distinct), every row keeps its cells and gets one more: the file's
    value at the row's date, or a missing-marker when the file has no such
    date. *)
Theorem swe_assign_by_date (df_swe df : DataFrame date float)
  (swe_path src dst : string) (j : nat) :
  let source := loc_upto d_2014_12_31 df_swe in
  Sorted Z.le (index df_swe) →
  col_pos src (columns df_swe) = Some j →
  col_pos dst (columns df) = None →
  ((∃ d, d ∈ index source ∧ d ∉ index df) →
   swe_assign (Some df_swe) swe_path src dst df =
     Raise (KeyError "labels not in index"))
  ∧ (NoDup (index source) →
     (∀ d, d ∈ index source → d ∈ index df) →
     ∃ out,
       swe_assign (Some df_swe) swe_path src dst df = Ok out
       ∧ columns out = columns df ++ [dst]
       ∧ index out = index df
       ∧ ∀ (i : nat) (d : date) (vals : list float),
           rows df !! i = Some (d, vals) →
           ∃ v, rows out !! i = Some (d, vals ++ [v])
              ∧ (∀ svals, assoc d (rows source) = Some svals →
                          v = default nan (svals !! j))
              ∧ (d ∉ index source → v = nan)).
Proof.
  intros source _ Hsrc Hdst. unfold swe_assign. fold source.
  unfold get_column. change (columns source) with (columns df_swe).
  rewrite Hsrc. simpl. split.
  - intros (d & Hin & Hnot). by eapply loc_setitem_missing.
  - intros _ Hall.
    edestruct (loc_setitem_present (index source) dst
                 ((λ r, (r.1, default NA (r.2 !! j))) <$> rows source) df)
      as (out & Hout & Hcols & Hrows); [done|].
    exists out. split; [done|]. split; [|split].
    + rewrite Hcols. unfold with_column. by rewrite Hdst.
    + by eapply loc_setitem_index.
    + intros i d vals Hi. rewrite Hrows, list_lookup_fmap, Hi. simpl.
      rewrite Hdst. unfold put_cell. rewrite Hdst.
      rewrite (assoc_fmap (λ svals : list float, default NA (svals !! j))).
      destruct (bool_decide_reflect (d ∈ index source)) as [Hin|Hnin].
      * eexists. split; [done|]. split.
        -- by intros svals ->.
        -- done.
      * exists nan. split; [done|]. split; [|done].
        intros svals Hs. destruct Hnin. apply assoc_is_Some. by eexists.
Qed.

Lemma swe_assign_by_date_witness :
  (swe_assign (Some Fixture.swe_ua_early) "co_camels_stats.csv"
     "sum_9034900" "co_swe_ua" (ff_body Fixture.forcing_09034900) =
     Raise (KeyError "labels not in index"))
  ∧ ∃ out,
      swe_assign (Some Fixture.swe_ua) "co_camels_stats.csv"
        "sum_9034900" "co_swe_ua" (ff_body Fixture.forcing_09034900) = Ok out
      ∧ rows out !! 0%nat = Some (Fixture.day (-2), [0; 11; nan]%float)
      ∧ rows out !! 1%nat = Some (Fixture.day (-1), [1.5; 12; 10]%float).
Proof.
  split.
  - edestruct (swe_assign_by_date Fixture.swe_ua_early
                 (ff_body Fixture.forcing_09034900) "co_camels_stats.csv"
                 "sum_9034900" "co_swe_ua" 0) as [Hraise _].
    + apply (bool_decide_unpack _). vm_compute. exact I.
    + reflexivity.
    + reflexivity.
    + apply Hraise. exists (Fixture.day (-4)).
      split; apply (bool_decide_unpack _); vm_compute; exact I.
  - edestruct (swe_assign_by_date Fixture.swe_ua
                 (ff_body Fixture.forcing_09034900) "co_camels_stats.csv"
                 "sum_9034900" "co_swe_ua" 0) as [_ Hassign].
    + apply (bool_decide_unpack _). vm_compute. exact I.
    + reflexivity.
    + reflexivity.
    + destruct Hassign as (out & Hout & _ & _ & Hrows).
      * apply (bool_decide_unpack _). vm_compute. exact I.
      * apply Forall_forall, (bool_decide_unpack _). vm_compute. exact I.
      * exists out. split; [done|].
        injection Hout as <-. split; reflexivity.
Defined.

(** C5, as the specification has it, fails: a date of the SWE file that the
    forcing table lacks is not passed over.  The file has 2000-09-27, the
    forcing table starts on 2000-09-29, and the load raises [KeyError]. *)
Lemma swe_unmatched_date_raises :
  Fixture.day (-4) ∈ index (loc_upto d_2014_12_31 Fixture.swe_ua_early)
  ∧ (Fixture.day (-4) ∉ index (ff_body Fixture.forcing_09034900))
  ∧ load_and_add_SWE_data_to_forcing Fixture.data_dir_early
      (ff_body Fixture.forcing_09034900) "09034900" =
      Raise (KeyError "labels not in index")
  ∧ ¬ (∃ out,
         load_and_add_SWE_data_to_forcing Fixture.data_dir_early
           (ff_body Fixture.forcing_09034900) "09034900" = Ok out).
Proof.
  split_and!.
  - apply (bool_decide_unpack _). vm_compute. exact I.
  - apply (bool_decide_unpack _). vm_compute. exact I.
  - reflexivity.
  - intros [out Hout]. vm_compute in Hout. discriminate.
Qed.

(** ** Invalid discharge values *)

Lemma nan_if_negative_idemp (v : float) :
  nan_if_negative (nan_if_negative v) = nan_if_negative v.
Proof.
  unfold nan_if_negative. by destruct (v <? 0)%float eqn:Hv; [|rewrite Hv].
Qed.

Lemma mask_negative_columns (col : string) (df : DataFrame date float) :
  columns (mask_negative col df) = columns df.
Proof. unfold mask_negative. by destruct (col_pos _ _). Qed.

Lemma mask_negative_index (col : string) (df : DataFrame date float) :
  index (mask_negative col df) = index df.
Proof.
  unfold mask_negative. destruct (col_pos _ _); [|done].
  unfold index. simpl. by rewrite <- list_fmap_compose.
Qed.

Lemma mask_negative_row (col : string) (df : DataFrame date float)
  (i : nat) (d : date) (vals : list float) :
  NoDup (columns df) →
  rows df !! i = Some (d, vals) →
  ∃ vals',
    rows (mask_negative col df) !! i = Some (d, vals')
    ∧ length vals' = length vals
    ∧ ∀ j c v, columns df !! j = Some c → vals !! j = Some v →
        vals' !! j =
          Some (if decide (c = col) then nan_if_negative v else v).
Proof.
  intros Hnd Hi. unfold mask_negative.
  destruct (col_pos col (columns df)) as [j0|] eqn:Hpos.
  - exists (alter nan_if_negative j0 vals). simpl.
    rewrite list_lookup_fmap, Hi. split; [done|].
    split; [by rewrite length_alter|].
    intros j c v Hc Hv. destruct (decide (c = col)) as [->|Hne].
    + rewrite (col_pos_lookup_NoDup _ _ _ Hnd Hc) in Hpos.
      injection Hpos as <-. by rewrite list_lookup_alter_eq, Hv.
    + rewrite list_lookup_alter_ne; [done|].
      intros <-. apply col_pos_Some in Hpos. congruence.
  - exists vals. split; [done|]. split; [done|].
    intros j c v Hc Hv. rewrite decide_False; [done|].
    intros ->. apply col_pos_None in Hpos. destruct Hpos.
    by eapply list_elem_of_lookup_2.
Qed.

Lemma mask_negative_fold (cols : list string) (df : DataFrame date float) :
  NoDup (columns df) →
  let out := foldl (λ df col, mask_negative col df) df cols in
  columns out = columns df
  ∧ index out = index df
  ∧ ∀ i d vals, rows df !! i = Some (d, vals) →
      ∃ vals',
        rows out !! i = Some (d, vals')
        ∧ length vals' = length vals
        ∧ ∀ j c v, columns df !! j = Some c → vals !! j = Some v →
            vals' !! j =
              Some (if decide (c ∈ cols) then nan_if_negative v else v).
Proof.
  revert df. induction cols as [|col cols IH]; intros df Hnd; simpl.
  - split; [done|]. split; [done|]. intros i d vals Hi.
    exists vals. split; [done|]. split; [done|]. by intros j c v _ Hv.
  - destruct (IH (mask_negative col df)) as (Hcols & Hidx & Hrows).
    { by rewrite mask_negative_columns. }
    rewrite mask_negative_columns in Hcols.
    rewrite mask_negative_index in Hidx.
    split; [done|]. split; [done|]. intros i d vals Hi.
    destruct (mask_negative_row col df i d vals Hnd Hi)
      as (vals1 & Hi1 & Hlen1 & Hcell1).
    destruct (Hrows i d vals1 Hi1) as (vals2 & Hi2 & Hlen2 & Hcell2).
    exists vals2. split; [done|]. split; [congruence|].
    intros j c v Hc Hv.
    erewrite Hcell2; [| by rewrite mask_negative_columns
                       | by apply Hcell1].
    f_equal. destruct (decide (c = col)) as [->|Hne].
    + rewrite (decide_True (P := col ∈ col :: cols)) by by left.
      destruct (decide (col ∈ cols)); [apply nan_if_negative_idemp|done].
    + destruct (decide (c ∈ cols)) as [Hin|Hnin].
      * rewrite decide_True; [done|by right].
      * rewrite decide_False; [done|].
        rewrite not_elem_of_cons. by split.
Qed.

(** C7.  [_load_basin_data] changes the assembled table in one way only:
    in a column whose name has "qobs" in it, whatever the case of the
    letters, a value below zero becomes NaN.  The columns, the dates, every
    cell of the other columns and every cell of a qobs column that is not
    below zero are as assembled. *)
Theorem load_basin_data_cleans_qobs (cfg : Config) (basin : string)
  (df : DataFrame date float) :
  assemble_basin_data cfg basin = Ok df →
  NoDup (columns df) →
  ∃ out,
    _load_basin_data cfg basin = Ok out
    ∧ columns out = columns df
    ∧ index out = index df
    ∧ ∀ (i j : nat) (d : date) (vals : list float) (col : string)
        (v : float),
        rows df !! i = Some (d, vals) →
        columns df !! j = Some col →
        vals !! j = Some v →
        ∃ vals',
          rows out !! i = Some (d, vals')
          ∧ length vals' = length vals
          ∧ vals' !! j =
              Some (if Str.contains "qobs" (Str.lower col) && (v <? 0)%float
                    then nan else v).
Proof.
  intros Hdf Hnd. unfold _load_basin_data. rewrite Hdf. simpl.
  eexists. split; [done|].
  destruct (mask_negative_fold (List.filter is_qobs (columns df)) df Hnd)
    as (Hcols & Hidx & Hrows).
  split; [done|]. split; [done|].
  intros i j d vals col v Hi Hcol Hv.
  destruct (Hrows i d vals Hi) as (vals' & Hi' & Hlen & Hcell).
  exists vals'. split; [done|]. split; [done|].
  rewrite (Hcell j col v Hcol Hv). f_equal.
  fold (is_qobs col). unfold nan_if_negative.
  destruct (decide (col ∈ List.filter is_qobs (columns df))) as [Hin|Hnin].
  - apply list_elem_of_In, filter_In in Hin as [_ ->]. done.
  - destruct (is_qobs col) eqn:Hq; [|done].
    destruct Hnin. apply list_elem_of_In, filter_In. split; [|done].
    by eapply list_elem_of_In, list_elem_of_lookup_2.
Qed.

Lemma load_basin_data_cleans_qobs_witness :
  ∃ df out,
    assemble_basin_data Fixture.cfg "09034900" = Ok df
    ∧ _load_basin_data Fixture.cfg "09034900" = Ok out
    ∧ columns df !! 4%nat = Some "QObs(mm/d)"
    ∧ rows df !! 1%nat =
        Some (Fixture.day 1,
              [3; 8; 30; nan; (-4888257.9400065029)]%float)
    ∧ rows out !! 1%nat = Some (Fixture.day 1, [3; 8; 30; nan; nan]%float)
    ∧ rows df !! 2%nat = Some (Fixture.day 2, [0; (-1); nan; 6; 0]%float)
    ∧ rows out !! 2%nat = Some (Fixture.day 2, [0; (-1); nan; 6; 0]%float).
Proof.
  eexists.
  edestruct (load_basin_data_cleans_qobs Fixture.cfg "09034900")
    as (out & Hout & _).
  - reflexivity.
  - apply (bool_decide_unpack _). vm_compute. exact I.
  - exists out. split; [reflexivity|]. split; [exact Hout|].
    injection Hout as <-. split_and!; reflexivity.
Defined.

(** ** Unions of indexes *)

Section union_facts.
Context {K : Type} `{EqDecision K}.

Lemma elem_of_index_union (x : K) (l k : list K) :
  x ∈ index_union l k ↔ x ∈ l ∨ x ∈ k.
Proof.
  unfold index_union. rewrite elem_of_app, list_elem_of_difference.
  destruct (decide (x ∈ l)); tauto.
Qed.

Lemma NoDup_index_union (l k : list K) :
  NoDup l → NoDup k → NoDup (index_union l k).
Proof.
  intros Hl Hk. unfold index_union. apply NoDup_app. split; [done|]. split.
  - intros x Hx. rewrite list_elem_of_difference. by intros [_ ?].
  - by apply NoDup_list_difference.
Qed.

Lemma elem_of_foldl_index_union (x : K) (acc : list K) (ls : list (list K)) :
  x ∈ foldl index_union acc ls ↔ x ∈ acc ∨ ∃ l, l ∈ ls ∧ x ∈ l.
Proof.
  revert acc. induction ls as [|l ls IH]; intros acc; simpl.
  - split; [by left|]. intros [?|(l & Hl & _)]; [done|].
    by apply elem_of_nil in Hl.
  - rewrite IH, elem_of_index_union. split.
    + intros [[?|?]|(l' & Hl' & ?)].
      * by left.
      * right. exists l. split; [by left|done].
      * right. exists l'. split; [by right|done].
    + intros [?|(l' & Hl' & ?)]; [by left; left|].
      apply elem_of_cons in Hl' as [->|Hl']; [by left; right|].
      right. by exists l'.
Qed.

Lemma elem_of_union_labels (x : K) (ls : list (list K)) :
  x ∈ union_labels ls ↔ ∃ l, l ∈ ls ∧ x ∈ l.
Proof.
  unfold union_labels. rewrite elem_of_foldl_index_union.
  split; [|by right]. intros [Hx|?]; [|done]. by apply elem_of_nil in Hx.
Qed.

Lemma NoDup_foldl_index_union (acc : list K) (ls : list (list K)) :
  NoDup acc → Forall NoDup ls → NoDup (foldl index_union acc ls).
Proof.
  revert acc. induction ls as [|l ls IH]; intros acc Hacc Hls; simpl.
  - done.
  - apply Forall_cons in Hls as [Hl Hls].
    apply IH; [|done]. by apply NoDup_index_union.
Qed.

Lemma NoDup_union_labels (ls : list (list K)) :
  Forall NoDup ls → NoDup (union_labels ls).
Proof. apply NoDup_foldl_index_union. constructor. Qed.

End union_facts.

Lemma elem_of_union_dates (d : date) (ls : list (list date)) :
  d ∈ union_dates ls ↔ ∃ l, l ∈ ls ∧ d ∈ l.
Proof.
  unfold union_dates. rewrite merge_sort_Permutation.
  apply elem_of_union_labels.
Qed.

Lemma foldl_min_spec (x : Z) (l : list Z) :
  foldl Z.min x l ∈ x :: l ∧ ∀ y, y ∈ x :: l → foldl Z.min x l ≤ y.
Proof.
  revert x. induction l as [|z l IH]; intros x; simpl.
  - split; [by left|]. intros y Hy.
    apply list_elem_of_singleton in Hy as ->. lia.
  - destruct (IH (Z.min x z)) as [Hin Hle]. split.
    + apply elem_of_cons in Hin as [->|Hin].
      * destruct (Z.min_spec x z) as [[_ ->]|[_ ->]];
          [by left|by right; left].
      * by right; right.
    + intros y Hy.
      assert (foldl Z.min (Z.min x z) l ≤ Z.min x z) by (apply Hle; by left).
      apply elem_of_cons in Hy as [->|Hy]; [lia|].
      apply elem_of_cons in Hy as [->|Hy]; [lia|].
      apply Hle. by right.
Qed.

Lemma foldl_max_spec (x : Z) (l : list Z) :
  foldl Z.max x l ∈ x :: l ∧ ∀ y, y ∈ x :: l → y ≤ foldl Z.max x l.
Proof.
  revert x. induction l as [|z l IH]; intros x; simpl.
  - split; [by left|]. intros y Hy.
    apply list_elem_of_singleton in Hy as ->. lia.
  - destruct (IH (Z.max x z)) as [Hin Hle]. split.
    + apply elem_of_cons in Hin as [->|Hin].
      * destruct (Z.max_spec x z) as [[_ ->]|[_ ->]];
          [by right; left|by left].
      * by right; right.
    + intros y Hy.
      assert (Z.max x z ≤ foldl Z.max (Z.max x z) l) by (apply Hle; by left).
      apply elem_of_cons in Hy as [->|Hy]; [lia|].
      apply elem_of_cons in Hy as [->|Hy]; [lia|].
      apply Hle. by right.
Qed.

Lemma py_min_spec (l : list date) :
  l ≠ [] → ∃ m, py_min l = Ok m ∧ m ∈ l ∧ ∀ d, d ∈ l → m ≤ d.
Proof.
  destruct l as [|x l]; [done|]. intros _.
  exists (foldl Z.min x l). split; [done|]. apply foldl_min_spec.
Qed.

Lemma py_max_spec (l : list date) :
  l ≠ [] → ∃ m, py_max l = Ok m ∧ m ∈ l ∧ ∀ d, d ∈ l → d ≤ m.
Proof.
  destruct l as [|x l]; [done|]. intros _.
  exists (foldl Z.max x l). split; [done|]. apply foldl_max_spec.
Qed.

(** ** HydroAtlas forcings *)

Section single_column.
Context {K V : Type} `{EqDecision K} `{Missing V}.

Lemma select_rename_Ok (c c' : string) (df : DataFrame K V)
  (ser : Series K V) :
  get_column c df = Ok ser →
  select_rename c c' df = Ok (mkDataFrame [c'] ((λ r, (r.1, [r.2])) <$> ser)).
Proof. unfold select_rename. by intros ->. Qed.

Lemma row_or_na_single (c : string) (ser : Series K V) (k : K) :
  row_or_na k (mkDataFrame [c] ((λ r, (r.1, [r.2])) <$> ser)) =
    [default NA (assoc k ser)].
Proof.
  unfold row_or_na, all_missing. simpl.
  rewrite (assoc_fmap (λ v : V, [v])). by destruct (assoc k ser).
Qed.

Lemma index_single (c : string) (ser : Series K V) :
  index (mkDataFrame [c] ((λ r, (r.1, [r.2])) <$> ser)) = ser.*1.
Proof. unfold index. simpl. by rewrite <- list_fmap_compose. Qed.

Lemma fmap_fst_tabulate {A} (f : K → A) (keys : list K) :
  ((λ k, (k, f k)) <$> keys).*1 = keys.
Proof. rewrite <- list_fmap_compose. apply list_fmap_id. Qed.

End single_column.

Lemma nonempty_elem {A} (l : list A) : l ≠ [] → ∃ x, x ∈ l.
Proof. destruct l as [|x l]; [done|]. intros _. exists x. by left. Qed.

(** C8.  For a basin that has a column in each of the five HydroAtlas
    files, the dates of a file being distinct,
    [load_hydroatlas12_daily_forcing] returns the five columns
    apcpsfc, dswrfsfc, pressfc, tmp2m_max, tmp2m_min over every day from the
    first to the last date found in the files, one row a day.  A cell holds
    the value its file has for the basin on that day, or a missing-marker
    when the file has no such day. *)
Theorem load_hydroatlas12_daily_forcing_calendar (data_dir : DataDir)
  (basin : string)
  (apcpsfc dswrfsfc pressfc tmp2m_max tmp2m_min : Series date float) :
  get_column basin (hydroatlas_co_apcpsfc_qc_daily_csv data_dir)
    = Ok apcpsfc →
  get_column basin (hydroatlas_co_dswrfsfc_qc_daily_csv data_dir)
    = Ok dswrfsfc →
  get_column basin (hydroatlas_co_pressfc_qc_daily_csv data_dir)
    = Ok pressfc →
  get_column basin (hydroatlas_co_tmp2m_max_qc_daily_csv data_dir)
    = Ok tmp2m_max →
  get_column basin (hydroatlas_co_tmp2m_min_qc_daily_csv data_dir)
    = Ok tmp2m_min →
  Forall (λ ser : Series date float, NoDup ser.*1)
    [apcpsfc; dswrfsfc; pressfc; tmp2m_max; tmp2m_min] →
  let observed :=
    apcpsfc.*1 ++ dswrfsfc.*1 ++ pressfc.*1 ++ tmp2m_max.*1 ++ tmp2m_min.*1 in
  observed ≠ [] →
  ∃ df first last,
    load_hydroatlas12_daily_forcing data_dir basin = Ok df
    ∧ columns df = ["apcpsfc"; "dswrfsfc"; "pressfc"; "tmp2m_max"; "tmp2m_min"]
    ∧ first ∈ observed ∧ last ∈ observed
    ∧ (∀ d, d ∈ observed → first ≤ d ≤ last)
    ∧ index df = seqZ first (last - first + 1)
    ∧ rows df =
        (λ d, (d, [default nan (assoc d apcpsfc);
                   default nan (assoc d dswrfsfc);
                   default nan (assoc d pressfc);
                   default nan (assoc d tmp2m_max);
                   default nan (assoc d tmp2m_min)]))
          <$> seqZ first (last - first + 1).
Proof.
  intros H1 H2 H3 H4 H5 _ observed Hobs.
  unfold load_hydroatlas12_daily_forcing.
  rewrite (select_rename_Ok _ _ _ _ H1), (select_rename_Ok _ _ _ _ H2),
    (select_rename_Ok _ _ _ _ H3), (select_rename_Ok _ _ _ _ H4),
    (select_rename_Ok _ _ _ _ H5).
  cbn [mbind result_bind concat_axis1 fmap list_fmap].
  rewrite !index_single.
  set (U := union_dates _).
  assert (HU : ∀ d, d ∈ U ↔ d ∈ observed).
  { intros d. unfold U. rewrite elem_of_union_dates. unfold observed.
    rewrite !elem_of_app. split.
    - intros (l & Hl & Hd).
      repeat (apply elem_of_cons in Hl as [->|Hl]; [tauto|]).
      by apply elem_of_nil in Hl.
    - intros [?|[?|[?|[?|?]]]]; eexists; (split; [|eassumption]);
        rewrite !elem_of_cons; tauto. }
  assert (HUne : U ≠ []).
  { destruct (nonempty_elem observed Hobs) as [d0 Hd0].
    apply HU in Hd0. intros HUnil. rewrite HUnil in Hd0.
    by apply elem_of_nil in Hd0. }
  unfold index at 1 2. cbn [rows]. rewrite fmap_fst_tabulate.
  destruct (py_min_spec U HUne) as (first & -> & Hfirst & Hmin).
  destruct (py_max_spec U HUne) as (last & -> & Hlast & Hmax).
  cbn [mbind result_bind].
  eexists _, first, last. split; [done|]. split; [done|].
  split; [by apply HU|]. split; [by apply HU|].
  split; [intros d Hd; apply HU in Hd; split; auto|].
  split.
  - unfold index, reindex, date_range. cbn [rows].
    by rewrite fmap_fst_tabulate.
  - unfold reindex, date_range. cbn [rows]. apply list_fmap_ext.
    intros i d _. f_equal. unfold row_or_na at 1. cbn [rows].
    rewrite assoc_tabulate. cbn [fmap list_fmap concat].
    rewrite !row_or_na_single. destruct (decide (d ∈ U)) as [Hin|Hnin].
    + done.
    + rewrite HU in Hnin. unfold observed in Hnin.
      rewrite !elem_of_app in Hnin.
      rewrite !(proj2 (assoc_None d _)) by tauto. done.
Qed.

Lemma load_hydroatlas12_daily_forcing_calendar_witness :
  ∃ df,
    load_hydroatlas12_daily_forcing Fixture.data_dir "1020000010" = Ok df
    ∧ index df =
        [Fixture.day 0; Fixture.day 1; Fixture.day 2; Fixture.day 3;
         Fixture.day 4]
    ∧ rows df !! 0%nat = Some (Fixture.day 0, [1; 2; nan; 4; 5]%float)
    ∧ rows df !! 2%nat = Some (Fixture.day 2, [nan; nan; nan; nan; nan]).
Proof.
  edestruct (load_hydroatlas12_daily_forcing_calendar Fixture.data_dir
               "1020000010")
    as (df & first & last & Hload & _); [reflexivity..| | |].
  - apply (bool_decide_unpack _). vm_compute. exact I.
  - vm_compute. discriminate.
  - exists df. split; [exact Hload|].
    injection Hload as <-. split_and!; reflexivity.
Defined.

(** ** Static attributes *)

Section rows_at_facts.
Context {K V : Type} `{EqDecision K} `{Missing V}.

Lemma rows_at_absent (k : K) (df : DataFrame K V) :
  k ∉ index df → rows_at k df = [].
Proof.
  unfold rows_at, index. induction (rows df) as [|[k' vals] l IH]; [done|].
  rewrite fmap_cons, not_elem_of_cons. intros [Hne Hnin].
  rewrite filter_cons_False; [by apply IH|].
  intros Heq. simpl in *. congruence.
Qed.

Lemma rows_at_unique (k : K) (df : DataFrame K V) :
  NoDup (index df) → k ∈ index df →
  ∃ vals, rows_at k df = [(k, vals)] ∧ (k, vals) ∈ rows df.
Proof.
  unfold rows_at, index. induction (rows df) as [|[k' vals] l IH].
  - intros _ Hin. by apply elem_of_nil in Hin.
  - rewrite fmap_cons. intros Hnd Hin. apply NoDup_cons in Hnd as [Hk' Hnd].
    destruct (decide (k' = k)) as [->|Hne].
    + exists vals. rewrite filter_cons_True by done.
      split; [|by left]. f_equal.
      exact (rows_at_absent k (mkDataFrame [] l) Hk').
    + apply elem_of_cons in Hin as [?|Hin]; [simpl in *; congruence|].
      destruct (IH Hnd Hin) as (vals' & Hrows & Hel).
      exists vals'. rewrite filter_cons_False by done.
      split; [done|by right].
Qed.

Lemma filter_isin_nil (df : DataFrame K V) :
  filter_isin [] df = mkDataFrame (columns df) [].
Proof.
  unfold filter_isin. f_equal.
  induction (rows df) as [|r l IH]; [done|].
  rewrite filter_cons_False; [done|]. apply not_elem_of_nil.
Qed.

Lemma filter_isin_index_NoDup (keys : list K) (df : DataFrame K V) :
  NoDup (index df) → NoDup (index (filter_isin keys df)).
Proof.
  unfold index, filter_isin. simpl.
  induction (rows df) as [|[k vals] l IH]; [done|].
  rewrite fmap_cons. intros Hnd. apply NoDup_cons in Hnd as [Hk Hnd].
  destruct (decide (k ∈ keys)).
  - rewrite filter_cons_True by done. rewrite fmap_cons.
    apply NoDup_cons. split; [|by apply IH].
    intros Hin. apply Hk. apply list_elem_of_fmap in Hin as (r & -> & Hr).
    apply list_elem_of_fmap. exists r. split; [done|].
    by apply list_elem_of_filter in Hr as [_ ?].
  - rewrite filter_cons_False by done. by apply IH.
Qed.

(** A left join with a table that has no rows appends missing-markers. *)
Lemma join_left_no_rows (df : DataFrame K V) (cols : list string)
  (out : DataFrame K V) :
  join_left df (mkDataFrame cols []) = Ok out →
  columns out = columns df ++ cols
  ∧ rows out =
      (λ r, (r.1, r.2 ++ replicate (length cols) NA)) <$> rows df.
Proof.
  unfold join_left. destruct (bool_decide _); [done|].
  intros [= <-]. split; [done|]. simpl.
  induction (rows df) as [|r l IH]; [done|].
  rewrite !fmap_cons. simpl. by rewrite IH.
Qed.

(** A left join keeps the index when the joined table has unique labels. *)
Lemma join_left_index (df other out : DataFrame K V) :
  NoDup (index other) →
  join_left df other = Ok out →
  index out = index df.
Proof.
  intros Hnd. unfold join_left. destruct (bool_decide _); [done|].
  intros [= <-]. unfold index. simpl.
  induction (rows df) as [|[k vals] l IH]; [done|].
  rewrite !fmap_cons. simpl. rewrite fmap_app, IH. simpl.
  destruct (decide (k ∈ index other)) as [Hin|Hnin].
  - destruct (rows_at_unique k other Hnd Hin) as (vals' & -> & _). done.
  - by rewrite (rows_at_absent k other Hnin).
Qed.

Lemma loc_list_unique (keys : list K) (df : DataFrame K V) :
  NoDup (index df) →
  (∀ k, k ∈ keys → k ∈ index df) →
  ∃ out, loc_list keys df = Ok out
       ∧ columns out = columns df
       ∧ index out = keys
       ∧ ∀ r, r ∈ rows out → r ∈ rows df.
Proof.
  intros Hnd Hall. unfold loc_list.
  destruct (forallb _ keys) eqn:Hb.
  - eexists. split; [done|]. split; [done|]. unfold index. simpl. split.
    + clear Hb. induction keys as [|k keys IH]; [done|].
      rewrite fmap_cons. simpl. rewrite fmap_app.
      destruct (rows_at_unique k df Hnd) as (vals & -> & _).
      { apply Hall. by left. }
      simpl. f_equal. apply IH. intros k' Hk'. apply Hall. by right.
    + intros r Hr. apply list_elem_of_In, in_concat in Hr as (l & Hl & Hr).
      apply list_elem_of_In, list_elem_of_fmap in Hl as (k & -> & _).
      apply list_elem_of_In in Hr. unfold rows_at in Hr.
      by apply list_elem_of_filter in Hr as [_ ?].
  - apply not_true_iff_false in Hb. destruct Hb.
    apply forallb_forall. intros k Hk.
    by apply bool_decide_eq_true, Hall, list_elem_of_In.
Qed.

End rows_at_facts.

Section index_facts.
Context {K V : Type} `{EqDecision K} `{Missing V}.

Lemma get_column_index (c : string) (df : DataFrame K V) (ser : Series K V) :
  get_column c df = Ok ser → ser.*1 = index df.
Proof.
  unfold get_column. destruct (col_pos _ _); [|done].
  intros [= <-]. by rewrite <- list_fmap_compose.
Qed.

Lemma setitem_index (c : string) (ser : Series K V) (df : DataFrame K V) :
  ser.*1 = index df → index (setitem c ser df) = index df.
Proof.
  intros Hser. unfold setitem, index at 1. simpl.
  rewrite <- list_fmap_compose.
  destruct (rows df) as [|r l] eqn:Hrows.
  - unfold index in Hser. rewrite Hrows in Hser.
    apply fmap_nil_inv in Hser as ->. unfold index. by rewrite Hrows.
  - unfold index. by rewrite Hrows.
Qed.

Lemma drop_column_index (c : string) (df out : DataFrame K V) :
  drop_column c df = Ok out → index out = index df.
Proof.
  unfold drop_column. destruct (col_pos _ _); [|done].
  intros [= <-]. unfold index. simpl. by rewrite <- list_fmap_compose.
Qed.

Lemma concat_axis1_index (union : list (list K) → list K)
  (dfs : list (DataFrame K V)) (out : DataFrame K V) :
  concat_axis1 union dfs = Ok out → index out = union (index <$> dfs).
Proof.
  unfold concat_axis1. destruct dfs as [|df dfs]; [done|].
  intros [= <-]. unfold index at 1. simpl. by rewrite fmap_fst_tabulate.
Qed.

End index_facts.

Section attributes_theory.
Variable str_float : float → string.

Lemma load_camels_attributes_index (data_dir : DataDir)
  (basins : list string) (primary : DataFrame string attr) :
  load_camels_attributes str_float data_dir basins = Ok primary →
  ∃ files, camels_attributes_v2_0 data_dir = Some files
         ∧ index primary = union_labels (index <$> files).
Proof.
  unfold load_camels_attributes.
  destruct (camels_attributes_v2_0 data_dir) as [files|]; [|done].
  intros Hload. exists files. split; [done|].
  apply bind_Ok in Hload as (df & Hconcat & Hload).
  apply bind_Ok in Hload as (huc_02 & Hhuc & Hdrop).
  apply drop_column_index in Hdrop. rewrite Hdrop.
  rewrite setitem_index.
  - by eapply concat_axis1_index.
  - rewrite <- list_fmap_compose. by apply get_column_index in Hhuc.
Qed.

(** The joins never raise the error of the missing basins. *)
Lemma joined_attributes_error (data_dir : DataDir) (basins : list string)
  (e : exn) :
  joined_attributes str_float data_dir basins = Raise e →
  e ≠ ValueError "Some basins are missing static attributes.".
Proof.
  unfold joined_attributes, load_camels_attributes, load_camels_hydroatlas,
    add_hydroatlas_attributes_to_camels, concat_axis1, get_column,
    drop_column, join_left.
  intros Hraise ->.
  repeat
    match type of Hraise with
    | _ ≫= _ = Raise _ =>
        apply bind_Raise in Hraise as [Hraise|(? & _ & Hraise)]
    | match ?x with _ => _ end = Raise _ => destruct x
    | (if ?b then _ else _) = Raise _ => destruct b
    | _ => discriminate Hraise
    end.
Qed.

(** C3.  When some basins are requested and the joined table has one row
    per gauge_id, [load_all_attributes] raises the [ValueError] of the
    missing basins exactly when a requested basin has no row in the joined
    table.  When each has one, the rows returned are rows of the joined
    table and their labels are the requested basins, one row each, in the
    order requested. *)
Theorem load_all_attributes_complete (data_dir : DataDir)
  (basins : list string) (df : DataFrame string attr) :
  basins ≠ [] →
  joined_attributes str_float data_dir basins = Ok df →
  NoDup (index df) →
  (load_all_attributes str_float data_dir basins =
     Raise (ValueError "Some basins are missing static attributes.")
   ↔ ∃ b, b ∈ basins ∧ b ∉ index df)
  ∧ ((∀ b, b ∈ basins → b ∈ index df) →
     ∃ out,
       load_all_attributes str_float data_dir basins = Ok out
       ∧ columns out = columns df
       ∧ index out = basins
       ∧ ∀ r, r ∈ rows out → r ∈ rows df).
Proof.
  intros Hne Hjoin Hnd. unfold load_all_attributes. rewrite Hjoin.
  cbn [mbind result_bind].
  destruct basins as [|b0 basins']; [done|]. set (basins := b0 :: basins').
  destruct (existsb _ basins) eqn:Hex.
  - apply existsb_exists in Hex as (b & Hb & Hmiss).
    apply bool_decide_eq_true in Hmiss. apply list_elem_of_In in Hb.
    split.
    + split; [by exists b|done].
    + intros Hall. destruct Hmiss. by apply Hall.
  - assert (Hall : ∀ b, b ∈ basins → b ∈ index df).
    { intros b Hb. apply dec_stable. intros Hmiss.
      apply not_true_iff_false in Hex. apply Hex, existsb_exists.
      exists b. split; [by apply list_elem_of_In|].
      by apply bool_decide_eq_true. }
    destruct (loc_list_unique basins df Hnd Hall)
      as (out & Hout & Hcols & Hidx & Hrows).
    rewrite Hout. split.
    + split; [done|]. intros (b & Hb & Hmiss). destruct Hmiss. by apply Hall.
    + intros _. by exists out.
Qed.

(** C10.  With no basin requested [load_all_attributes] returns the joined
    table as it is: the error of the missing basins is never raised, no row
    is dropped, every basin of the attribute files has a row, and since the
    two HydroAtlas tables are cut down to no rows all their columns hold
    missing-markers. *)
Theorem load_all_attributes_no_basins (data_dir : DataDir) :
  load_all_attributes str_float data_dir [] =
    joined_attributes str_float data_dir []
  ∧ load_all_attributes str_float data_dir [] ≠
      Raise (ValueError "Some basins are missing static attributes.")
  ∧ ∀ out,
      load_all_attributes str_float data_dir [] = Ok out →
      ∃ files primary hydroatlas_df hydroatlas_pca_df,
        camels_attributes_v2_0 data_dir = Some files
        ∧ load_camels_attributes str_float data_dir [] = Ok primary
        ∧ camels_hydroatlas_csv data_dir = Some hydroatlas_df
        ∧ camels_hydroatlas_pca_transformed_all_csv data_dir =
            Some hydroatlas_pca_df
        ∧ (∀ f b, f ∈ files → b ∈ index f → b ∈ index out)
        ∧ columns out =
            (columns primary ++ columns hydroatlas_df)
            ++ columns hydroatlas_pca_df
        ∧ rows out =
            (λ r, (r.1,
                   (r.2 ++ replicate (length (columns hydroatlas_df)) NA)
                   ++ replicate (length (columns hydroatlas_pca_df)) NA))
              <$> rows primary.
Proof.
  assert (Heq : load_all_attributes str_float data_dir [] =
                joined_attributes str_float data_dir []).
  { unfold load_all_attributes.
    by destruct (joined_attributes str_float data_dir []). }
  split; [done|]. rewrite Heq. split.
  { intros Hraise. by eapply joined_attributes_error. }
  intros out Hjoin. unfold joined_attributes in Hjoin.
  cbn [filter list_filter] in Hjoin.
  apply bind_Ok in Hjoin as (primary & Hprimary & Hjoin).
  apply bind_Ok in Hjoin as ([h p] & Hhydro & Hjoin).
  unfold load_camels_hydroatlas in Hhydro.
  destruct (camels_hydroatlas_csv data_dir) as [hydroatlas_df|];
    [|discriminate].
  destruct (camels_hydroatlas_pca_transformed_all_csv data_dir)
    as [hydroatlas_pca_df|]; [|discriminate].
  cbn zeta in Hhydro. injection Hhydro as <- <-.
  rewrite !filter_isin_nil in Hjoin.
  unfold add_hydroatlas_attributes_to_camels in Hjoin.
  apply bind_Ok in Hjoin as (mid & Hmid & Hout).
  apply join_left_no_rows in Hmid as [Hmidc Hmidr].
  apply join_left_no_rows in Hout as [Houtc Houtr].
  destruct (load_camels_attributes_index _ _ _ Hprimary)
    as (files & Hfiles & Hidx).
  assert (Hrows : rows out =
            (λ r, (r.1,
                   (r.2 ++ replicate (length (columns hydroatlas_df)) NA)
                   ++ replicate (length (columns hydroatlas_pca_df)) NA))
              <$> rows primary).
  { rewrite Houtr, Hmidr, <- list_fmap_compose. done. }
  exists files, primary, hydroatlas_df, hydroatlas_pca_df.
  split_and!; try done.
  - intros f b Hf Hb. unfold index. rewrite Hrows, <- list_fmap_compose.
    change (b ∈ index primary). rewrite Hidx.
    apply elem_of_union_labels. exists (index f). split; [|done].
    apply list_elem_of_fmap. by exists f.
  - by rewrite Houtc, Hmidc.
Qed.

End attributes_theory.

(** When every file has one row per gauge_id, so has the joined table, and
    its basins are those of the attribute files. *)
Lemma joined_attributes_index (str_float : float → string)
  (data_dir : DataDir) (basins : list string)
  (df : DataFrame string attr) :
  joined_attributes str_float data_dir basins = Ok df →
  (∀ files, camels_attributes_v2_0 data_dir = Some files →
            Forall (λ f, NoDup (index f)) files) →
  (∀ h, camels_hydroatlas_csv data_dir = Some h → NoDup (index h)) →
  (∀ p, camels_hydroatlas_pca_transformed_all_csv data_dir = Some p →
        NoDup (index p)) →
  NoDup (index df)
  ∧ ∀ files, camels_attributes_v2_0 data_dir = Some files →
             index df = union_labels (index <$> files).
Proof.
  intros Hjoin Hfiles Hh Hp. unfold joined_attributes in Hjoin.
  apply bind_Ok in Hjoin as (primary & Hprimary & Hjoin).
  apply bind_Ok in Hjoin as ([h p] & Hhydro & Hjoin).
  unfold load_camels_hydroatlas in Hhydro.
  destruct (camels_hydroatlas_csv data_dir) as [h0|]; [|discriminate].
  destruct (camels_hydroatlas_pca_transformed_all_csv data_dir) as [p0|];
    [|discriminate].
  cbn zeta in Hhydro. injection Hhydro as <- <-.
  unfold add_hydroatlas_attributes_to_camels in Hjoin.
  apply bind_Ok in Hjoin as (mid & Hmid & Hout).
  apply join_left_index in Hmid; [|by apply filter_isin_index_NoDup, Hh].
  apply join_left_index in Hout; [|by apply filter_isin_index_NoDup, Hp].
  destruct (load_camels_attributes_index _ _ _ _ Hprimary)
    as (files & Hsome & Hidx).
  rewrite Hout, Hmid, Hidx. split.
  - apply NoDup_union_labels, Forall_fmap.
    specialize (Hfiles files Hsome). by apply Hfiles.
  - intros files' Hsome'. congruence.
Qed.

Lemma load_all_attributes_complete_witness :
  load_all_attributes Fixture.str_float Fixture.data_dir
    ["09034900"; "12345678"] =
    Raise (ValueError "Some basins are missing static attributes.")
  ∧ ∃ out,
      load_all_attributes Fixture.str_float Fixture.data_dir
        ["01013500"; "09034900"] = Ok out
      ∧ index out = ["01013500"; "09034900"].
Proof.
  split.
  - edestruct (load_all_attributes_complete Fixture.str_float
                 Fixture.data_dir ["09034900"; "12345678"])
      as [Hiff _].
    + discriminate.
    + reflexivity.
    + apply (bool_decide_unpack _). vm_compute. exact I.
    + apply Hiff. exists "12345678".
      split; apply (bool_decide_unpack _); vm_compute; exact I.
  - edestruct (load_all_attributes_complete Fixture.str_float
                 Fixture.data_dir ["01013500"; "09034900"])
      as [_ Hall].
    + discriminate.
    + reflexivity.
    + apply (bool_decide_unpack _). vm_compute. exact I.
    + destruct Hall as (out & Hout & _ & Hidx & _).
      * apply Forall_forall, (bool_decide_unpack _). vm_compute. exact I.
      * by exists out.
Defined.

Lemma load_all_attributes_no_basins_witness :
  ∃ out,
    load_all_attributes Fixture.str_float Fixture.data_dir [] = Ok out
    ∧ index out = ["09034900"; "01013500"]
    ∧ rows out !! 0%nat =
        Some ("09034900",
              [AStr "BOBTAIL CREEK"; AFloat 2.4; AStr "14"; NA; NA]).
Proof.
  destruct (load_all_attributes_no_basins Fixture.str_float Fixture.data_dir)
    as (Heq & _ & _).
  eexists. split; [rewrite Heq; reflexivity|]. split; reflexivity.
Defined.

(** * Further properties of the loaders *)

(** ** Snow water equivalent: errors and what is kept *)

Lemma elem_of_drop_while {A} (p : A → bool) (x : A) (l : list A) :
  x ∈ drop_while p l → x ∈ l.
Proof.
  induction l as [|y l IH]; simpl; [done|].
  destruct (p y); [|done]. intros Hx. right. by apply IH.
Qed.

Lemma elem_of_drop_while_sorted (lo d : date) (l : list date) :
  Sorted Z.le l →
  d ∈ drop_while (λ d, d <? lo) l ↔ d ∈ l ∧ lo ≤ d.
Proof.
  intros Hs. apply Sorted_StronglySorted in Hs; [|intros x y z; lia].
  rewrite drop_while_filter_sorted by done.
  rewrite list_elem_of_filter. tauto.
Qed.

Section loc_setitem_rows.
Context {K V : Type} `{EqDecision K} `{Missing V}.

(** A successful assignment to a new column adds one cell to every row. *)
Lemma loc_setitem_new_column (keys : list K) (c : string) (ser : Series K V)
  (df out : DataFrame K V) :
  loc_setitem keys c ser df = Ok out →
  c ∉ columns df →
  columns out = columns df ++ [c]
  ∧ (∀ k, k ∈ keys → k ∈ index df)
  ∧ rows out =
      (λ r, (r.1, r.2 ++ [if bool_decide (r.1 ∈ keys)
                          then default NA (assoc r.1 ser) else NA]))
        <$> rows df.
Proof.
  intros Hout Hnew. apply col_pos_None in Hnew.
  assert (Hall : ∀ k, k ∈ keys → k ∈ index df).
  { intros k Hk. apply dec_stable. intros Hnot.
    by rewrite (loc_setitem_missing keys c ser df k Hk Hnot) in Hout. }
  destruct (loc_setitem_present keys c ser df Hall)
    as (out' & Hout' & Hcols & Hrows).
  rewrite Hout in Hout'. injection Hout' as <-.
  split; [|split; [done|]].
  - rewrite Hcols. unfold with_column. by rewrite Hnew.
  - rewrite Hrows. apply list_fmap_ext. intros i [k vals] _. simpl.
    unfold put_cell. rewrite Hnew. by destruct (bool_decide _).
Qed.

End loc_setitem_rows.

Lemma swe_pass_new_column (swe_csv : option (DataFrame date float))
  (swe_path src dst : string) (start : date)
  (df out : DataFrame date float) :
  swe_pass swe_csv swe_path src dst start df = Ok out →
  dst ∉ columns df →
  columns out = columns df ++ [dst]
  ∧ ∀ r, r ∈ rows out →
         ∃ vals v, (r.1, vals) ∈ rows df ∧ r.2 = vals ++ [v].
Proof.
  unfold swe_pass, swe_assign. intros Hpass Hnew.
  apply bind_Ok in Hpass as (mid & Hmid & [= <-]).
  destruct swe_csv as [df_swe|]; [|discriminate].
  apply bind_Ok in Hmid as (ser & _ & Hset).
  destruct (loc_setitem_new_column _ _ _ _ _ Hset Hnew)
    as (Hcols & _ & Hrows).
  split; [done|]. intros r Hr. unfold loc_from in Hr. simpl in Hr.
  apply elem_of_drop_while in Hr. rewrite Hrows in Hr.
  apply list_elem_of_fmap in Hr as ([d vals] & -> & Hr). simpl.
  by eexists _, _.
Qed.

(** X1.  [load_and_add_SWE_data_to_forcing] does not touch the forcing
    values: the table it returns has the columns of the forcing table
    followed by co_swe_ua and co_swe_snotel, and each of its rows is a row
    of the forcing table with two cells added. *)
Theorem swe_enrichment_keeps_forcing_cells (data_dir : DataDir)
  (df out : DataFrame date float) (basin : string) :
  load_and_add_SWE_data_to_forcing data_dir df basin = Ok out →
  "co_swe_ua" ∉ columns df →
  "co_swe_snotel" ∉ columns df →
  columns out = columns df ++ ["co_swe_ua"; "co_swe_snotel"]
  ∧ ∀ d vals', (d, vals') ∈ rows out →
      ∃ vals ua snotel,
        (d, vals) ∈ rows df ∧ vals' = vals ++ [ua; snotel].
Proof.
  intros Hload Hua Hsnotel.
  unfold load_and_add_SWE_data_to_forcing in Hload.
  apply bind_Ok in Hload as (df1 & Hpass1 & Hpass2).
  apply swe_pass_new_column in Hpass1 as [Hcols1 Hrows1]; [|done].
  apply swe_pass_new_column in Hpass2 as [Hcols2 Hrows2].
  - split; [by rewrite Hcols2, Hcols1, <- app_assoc|].
    intros d vals' Hin.
    destruct (Hrows2 _ Hin) as (vals1 & snotel & Hin1 & Hvals').
    destruct (Hrows1 _ Hin1) as (vals & ua & Hin0 & Hvals1).
    simpl in *. exists vals, ua, snotel. split; [done|].
    by rewrite Hvals', Hvals1, <- app_assoc.
  - rewrite Hcols1, not_elem_of_app. split; [done|].
    by intros [=]%list_elem_of_singleton.
Qed.

Lemma swe_enrichment_keeps_forcing_cells_witness :
  ∃ out,
    load_and_add_SWE_data_to_forcing Fixture.data_dir
      (ff_body Fixture.forcing_09034900) "09034900" = Ok out
    ∧ columns out =
        ["prcp(mm/day)"; "tmax(C)"; "co_swe_ua"; "co_swe_snotel"].
Proof.
  eexists. split; [reflexivity|].
  eapply (proj1 (swe_enrichment_keeps_forcing_cells Fixture.data_dir
                   (ff_body Fixture.forcing_09034900) _ "09034900"
                   eq_refl _ _)).
  Unshelve.
  - apply (bool_decide_unpack _). vm_compute. exact I.
  - apply (bool_decide_unpack _). vm_compute. exact I.
Defined.

(** X2.  A CAMELS basin that has a forcing file but no column
    sum_<basin[1:]> in the SWE file cannot be loaded:
    [load_basin_forcings] raises the [KeyError] of that column. *)
Theorem camels_basin_without_swe_column (data_dir : DataDir)
  (basin_id forcings : string) (df : DataFrame date float) (area : Z)
  (df_swe : DataFrame date float) :
  basin_id ∈ read_basin_list (list_671_camels_basins_txt data_dir) →
  load_camels_daily_forcings data_dir basin_id forcings = Ok (df, area) →
  co_camels_stats_all_years_20230814_csv data_dir = Some df_swe →
  "sum_" +:+ Str.tail basin_id ∉ columns df_swe →
  load_basin_forcings data_dir basin_id forcings =
    Raise (KeyError ("sum_" +:+ Str.tail basin_id)).
Proof.
  intros Hcamels Hforcing Hswe Hcol. unfold load_basin_forcings.
  rewrite bool_decide_eq_true_2 by done. rewrite Hforcing.
  cbn [mbind result_bind].
  unfold load_and_add_SWE_data_to_forcing, swe_pass, swe_assign.
  rewrite Hswe. unfold get_column.
  change (columns (loc_upto d_2014_12_31 df_swe)) with (columns df_swe).
  apply col_pos_None in Hcol. by rewrite Hcol.
Qed.

Lemma camels_basin_without_swe_column_witness :
  load_basin_forcings Fixture2.data_dir "01013500" "daymet" =
    Raise (KeyError "sum_1013500").
Proof.
  eapply (camels_basin_without_swe_column Fixture2.data_dir "01013500"
            "daymet").
  - apply (bool_decide_unpack _). vm_compute. exact I.
  - reflexivity.
  - reflexivity.
  - apply (bool_decide_unpack _). vm_compute. exact I.
Defined.

(** X3.  The station file is assigned to the table already cut to
    1999-10-01: when it has a date before 1999-10-01, the load of a
    chronological forcing table fails, even if the forcing table has that
    date. *)
Theorem snotel_date_before_1999_10_01_fails (data_dir : DataDir)
  (df df_swe : DataFrame date float) (basin : string) (d : date) :
  Sorted Z.le (index df) →
  co_camels_snotel_time_series_csv data_dir = Some df_swe →
  d ∈ index (loc_upto d_2014_12_31 df_swe) →
  d < days_from_civil 1999 10 1 →
  ∃ e, load_and_add_SWE_data_to_forcing data_dir df basin = Raise e.
Proof.
  intros Hsorted Hsnotel Hd Hlt.
  destruct (load_and_add_SWE_data_to_forcing data_dir df basin)
    as [out|e] eqn:Hload; [|by exists e].
  exfalso. unfold load_and_add_SWE_data_to_forcing in Hload.
  apply bind_Ok in Hload as (df1 & Hpass1 & Hpass2).
  apply swe_pass_Ok in Hpass1 as (mid1 & Hidx1 & ->).
  unfold swe_pass, swe_assign in Hpass2. rewrite Hsnotel in Hpass2.
  apply bind_Ok in Hpass2 as (mid2 & Hmid2 & _).
  apply bind_Ok in Hmid2 as (ser & _ & Hset).
  assert (Hin : d ∈ index (loc_from d_1999_10_01 mid1)).
  { apply dec_stable. intros Hnot.
    by rewrite (loc_setitem_missing _ _ _ _ d Hd Hnot) in Hset. }
  rewrite loc_from_index, Hidx1 in Hin.
  apply elem_of_drop_while_sorted in Hin as [_ Hge]; [|done].
  change (days_from_civil 1999 10 1) with d_1999_10_01 in Hlt. lia.
Qed.

Lemma snotel_date_before_1999_10_01_fails_witness :
  d_1999_10_01 - 1 ∈ index Fixture2.forcing_long
  ∧ load_and_add_SWE_data_to_forcing
      (Fixture2.with_files [] (Some Fixture2.swe_snotel_1999))
      Fixture2.forcing_long "09034900" =
      Raise (KeyError "labels not in index").
Proof.
  split; [apply (bool_decide_unpack _); vm_compute; exact I|].
  edestruct (snotel_date_before_1999_10_01_fails
               (Fixture2.with_files [] (Some Fixture2.swe_snotel_1999))
               Fixture2.forcing_long Fixture2.swe_snotel_1999 "09034900"
               (d_1999_10_01 - 1)) as [e He].
  - apply (bool_decide_unpack _). vm_compute. exact I.
  - reflexivity.
  - apply (bool_decide_unpack _). vm_compute. exact I.
  - reflexivity.
  - reflexivity.
Defined.

(** X4.  When both SWE files are there with the basin's columns, every
    date up to 2014-12-31 of the first is a date of the chronological
    forcing table, and every date up to 2014-12-31 of the second is a date
    of the forcing table not before 1999-10-01, the load returns a table. *)
Theorem swe_enrichment_returns (data_dir : DataDir)
  (df ua snotel : DataFrame date float) (basin : string) :
  Sorted Z.le (index df) →
  co_camels_stats_all_years_20230814_csv data_dir = Some ua →
  co_camels_snotel_time_series_csv data_dir = Some snotel →
  Sorted Z.le (index ua) → NoDup (index ua) →
  Sorted Z.le (index snotel) → NoDup (index snotel) →
  "sum_" +:+ Str.tail basin ∈ columns ua →
  Str.tail basin ∈ columns snotel →
  (∀ d, d ∈ index (loc_upto d_2014_12_31 ua) → d ∈ index df) →
  (∀ d, d ∈ index (loc_upto d_2014_12_31 snotel) →
        d ∈ index df ∧ days_from_civil 1999 10 1 ≤ d) →
  ∃ out, load_and_add_SWE_data_to_forcing data_dir df basin = Ok out.
Proof.
  intros Hsorted Hua Hsnotel _ _ _ _ Hcol1 Hcol2 Hdates1 Hdates2.
  unfold load_and_add_SWE_data_to_forcing, swe_pass, swe_assign.
  rewrite Hua, Hsnotel. unfold get_column.
  change (columns (loc_upto d_2014_12_31 ua)) with (columns ua).
  change (columns (loc_upto d_2014_12_31 snotel)) with (columns snotel).
  destruct (col_pos _ (columns ua)) as [j1|] eqn:Hj1;
    [|by apply col_pos_None in Hj1].
  destruct (col_pos _ (columns snotel)) as [j2|] eqn:Hj2;
    [|by apply col_pos_None in Hj2].
  cbn [mbind result_bind].
  destruct (loc_setitem_present (index (loc_upto d_2014_12_31 ua))
              "co_swe_ua"
              ((λ r, (r.1, default NA (r.2 !! j1)))
                 <$> rows (loc_upto d_2014_12_31 ua)) df Hdates1)
    as (mid1 & Heq1 & _ & _).
  destruct (loc_setitem_present (index (loc_upto d_2014_12_31 snotel))
              "co_swe_snotel"
              ((λ r, (r.1, default NA (r.2 !! j2)))
                 <$> rows (loc_upto d_2014_12_31 snotel))
              (loc_from d_1999_10_01 mid1))
    as (mid2 & Heq2 & _ & _).
  { intros d Hd. destruct (Hdates2 d Hd) as [Hin Hge].
    rewrite loc_from_index.
    apply elem_of_drop_while_sorted; [|split; [|done]].
    - by erewrite loc_setitem_index.
    - by erewrite loc_setitem_index. }
  exists (loc_from d_2000_10_01 mid2).
  rewrite Heq1. cbn [mbind result_bind]. by rewrite Heq2.
Qed.

Lemma swe_enrichment_returns_witness :
  ∃ out,
    load_and_add_SWE_data_to_forcing Fixture.data_dir
      (ff_body Fixture.forcing_09034900) "09034900" = Ok out.
Proof.
  eapply (swe_enrichment_returns Fixture.data_dir
            (ff_body Fixture.forcing_09034900) Fixture.swe_ua
            Fixture.swe_snotel "09034900");
    try reflexivity;
    try (apply (bool_decide_unpack _); vm_compute; exact I);
    apply Forall_forall, (bool_decide_unpack _); vm_compute; exact I.
Defined.

(** ** The per-basin table *)

(** What the loop over the forcing products leaves: the tables loaded
    before, then for each product the table [load_basin_forcings] returns,
    renamed when more than one product is configured; the area is that of
    the last product. *)
Lemma load_forcings_Ok (cfg : Config) (basin : string) (todo : list string)
  (dfs dfs' : list (DataFrame date float)) (area area' : option Z) :
  load_forcings cfg basin todo dfs area = Ok (dfs', area') →
  ∃ loaded,
    dfs' = dfs ++ loaded.*1
    ∧ Forall2
        (λ forcing l,
           ∃ df0,
             load_basin_forcings (cfg_data_dir cfg) basin forcing
               = Ok (df0, l.2)
             ∧ l.1 =
                 if (1 <? length (cfg_forcings cfg))%nat
                 then rename_columns (λ col, col +:+ "_" +:+ forcing) df0
                 else df0)
        todo loaded
    ∧ area' = from_option (λ l, Some l.2) area (last loaded).
Proof.
  revert dfs area. induction todo as [|forcing todo IH]; intros dfs area.
  - simpl. intros [= <- <-]. exists []. simpl.
    split; [by rewrite app_nil_r|]. split; [constructor|done].
  - simpl. intros Hloop.
    apply bind_Ok in Hloop as ([df0 a0] & Hload & Hloop).
    apply IH in Hloop as (loaded & -> & Hall & ->).
    exists ((if (1 <? length (cfg_forcings cfg))%nat
             then rename_columns (λ col, col +:+ "_" +:+ forcing) df0
             else df0, a0) :: loaded).
    split; [by rewrite <- app_assoc|].
    split; [constructor; [by exists df0|done]|].
    rewrite last_cons. by destruct (last loaded).
Qed.

Lemma assemble_basin_data_Ok (cfg : Config) (basin : string)
  (out : DataFrame date float) :
  assemble_basin_data cfg basin = Ok out →
  ∃ loaded combined,
    Forall2
      (λ forcing l,
         ∃ df0,
           load_basin_forcings (cfg_data_dir cfg) basin forcing
             = Ok (df0, l.2)
           ∧ l.1 =
               if (1 <? length (cfg_forcings cfg))%nat
               then rename_columns (λ col, col +:+ "_" +:+ forcing) df0
               else df0)
      (cfg_forcings cfg) loaded
    ∧ concat_axis1 union_dates loaded.*1 = Ok combined
    ∧ if bool_decide ("QObs(mm/d)" ∈ cfg_target_variables cfg)
      then ∃ l q,
             last loaded = Some l
             ∧ load_all_discharge (cfg_data_dir cfg) basin l.2 = Ok q
             ∧ out = setitem "QObs(mm/d)" q combined
      else out = combined.
Proof.
  unfold assemble_basin_data. intros Hasm.
  apply bind_Ok in Hasm as ([dfs area] & Hloop & Hasm).
  apply load_forcings_Ok in Hloop as (loaded & -> & Hall & ->).
  apply bind_Ok in Hasm as (combined & Hconcat & Hasm).
  exists loaded, combined. split; [done|]. split; [done|].
  destruct (bool_decide _); [|by injection Hasm].
  destruct (last loaded) as [l|]; simpl in Hasm; [|discriminate].
  apply bind_Ok in Hasm as (q & Hq & [= <-]). by exists l, q.
Qed.



Lemma mask_negative_foldl_frame (cols : list string)
  (df : DataFrame date float) :
  columns (foldl (λ df col, mask_negative col df) df cols) = columns df
  ∧ index (foldl (λ df col, mask_negative col df) df cols) = index df.
Proof.
  revert df. induction cols as [|col cols IH]; intros df; simpl; [done|].
  destruct (IH (mask_negative col df)) as [-> ->].
  by rewrite mask_negative_columns, mask_negative_index.
Qed.

Lemma setitem_index_rows {K V} `{EqDecision K} `{Missing V} (c : string)
  (ser : Series K V) (df : DataFrame K V) :
  rows df ≠ [] → index (setitem c ser df) = index df.
Proof.
  intros Hrows. unfold setitem, index. simpl.
  rewrite <- list_fmap_compose. by destruct (rows df).
Qed.

Lemma Forall2_elem_of_r {A B} (P : A → B → Prop) (l : list A) (k : list B)
  (y : B) :
  Forall2 P l k → y ∈ k → ∃ x, x ∈ l ∧ P x y.
Proof.
  intros Hall Hy. apply list_elem_of_lookup in Hy as [i Hi].
  destruct (Forall2_lookup_r _ _ _ _ _ Hall Hi) as (x & Hx & HP).
  exists x. split; [by eapply list_elem_of_lookup_2|done].
Qed.

Lemma Forall2_elem_of_l {A B} (P : A → B → Prop) (l : list A) (k : list B)
  (x : A) :
  Forall2 P l k → x ∈ l → ∃ y, y ∈ k ∧ P x y.
Proof.
  intros Hall Hx. apply list_elem_of_lookup in Hx as [i Hi].
  destruct (Forall2_lookup_l _ _ _ _ _ Hall Hi) as (y & Hy & HP).
  exists y. split; [by eapply list_elem_of_lookup_2|done].
Qed.

(** X6.  When a forcing product has a row for the basin, the dates of the
    table [_load_basin_data] returns are the dates of the forcing tables of
    the configured products: the discharge adds no date and removes
    none. *)
Theorem basin_table_dates (cfg : Config) (basin : string)
  (out : DataFrame date float) :
  _load_basin_data cfg basin = Ok out →
  (∃ forcing df area,
     forcing ∈ cfg_forcings cfg
     ∧ load_basin_forcings (cfg_data_dir cfg) basin forcing = Ok (df, area)
     ∧ rows df ≠ []) →
  ∀ d, d ∈ index out ↔
       ∃ forcing df area,
         forcing ∈ cfg_forcings cfg
         ∧ load_basin_forcings (cfg_data_dir cfg) basin forcing
             = Ok (df, area)
         ∧ d ∈ index df.
Proof.
  intros Hload Hsome. unfold _load_basin_data in Hload.
  apply bind_Ok in Hload as (df & Hasm & [= <-]).
  destruct (mask_negative_foldl_frame (List.filter is_qobs (columns df)) df)
    as [_ ->].
  apply assemble_basin_data_Ok in Hasm
    as (loaded & combined & Hall & Hconcat & Hq).
  assert (Hcombined : ∀ d, d ∈ index combined ↔
            ∃ forcing df area,
              forcing ∈ cfg_forcings cfg
              ∧ load_basin_forcings (cfg_data_dir cfg) basin forcing
                  = Ok (df, area)
              ∧ d ∈ index df).
  { intros d. rewrite (concat_axis1_index _ _ _ Hconcat).
    rewrite elem_of_union_dates. split.
    - intros (idx & Hidx & Hd).
      apply list_elem_of_fmap in Hidx as (df1 & -> & Hdf1).
      apply list_elem_of_fmap in Hdf1 as (l & -> & Hl).
      destruct (Forall2_elem_of_r _ _ _ _ Hall Hl)
        as (forcing & Hforcing & df0 & Hload & Heq).
      exists forcing, df0, l.2. split; [done|]. split; [done|].
      rewrite Heq in Hd. by destruct (1 <? _)%nat.
    - intros (forcing & df0 & area & Hforcing & Hload & Hd).
      destruct (Forall2_elem_of_l _ _ _ _ Hall Hforcing)
        as (l & Hl & df0' & Hload' & Heq).
      rewrite Hload in Hload'. injection Hload' as -> Harea.
      exists (index l.1). split.
      + apply list_elem_of_fmap. exists l.1. split; [done|].
        apply list_elem_of_fmap. by exists l.
      + rewrite Heq. by destruct (1 <? _)%nat. }
  destruct (bool_decide _); [|by subst].
  destruct Hq as (l & q & _ & _ & ->).
  intros d. rewrite <- Hcombined. rewrite setitem_index_rows; [done|].
  destruct Hsome as (forcing & df0 & area & Hforcing & Hload & Hrows).
  destruct (nonempty_elem (index df0)) as [d0 Hd0].
  { unfold index. by destruct (rows df0). }
  assert (Hin : d0 ∈ index combined)
    by (apply Hcombined; by exists forcing, df0, area).
  unfold index in Hin. intros Hnil. rewrite Hnil in Hin.
  by apply elem_of_nil in Hin.
Qed.

Lemma basin_table_dates_witness :
  ∃ out,
    _load_basin_data Fixture.cfg "09034900" = Ok out
    ∧ (Fixture.day 0 ∈ index out)
    ∧ (Fixture.day 3 ∉ index out).
Proof.
  eexists. split; [reflexivity|].
  pose proof (basin_table_dates Fixture.cfg "09034900" _ eq_refl) as Hdates.
  split.
  - apply Hdates.
    + eexists "daymet", _, _. split_and!; [|reflexivity|discriminate].
      apply (bool_decide_unpack _). vm_compute. exact I.
    + eexists "daymet", _, _. split_and!; [|reflexivity|].
      * apply (bool_decide_unpack _). vm_compute. exact I.
      * apply (bool_decide_unpack _). vm_compute. exact I.
  - apply (bool_decide_unpack _). vm_compute. exact I.
Defined.

(** Case analysis on a computation that raised: which step did. *)
Ltac raised H :=
  repeat
    match type of H with
    | _ ≫= _ = Raise _ =>
        let a := fresh "a" in
        apply bind_Raise in H as [H|(a & _ & H)]
    | match ?x with _ => _ end = Raise _ => destruct x
    | (if ?b then _ else _) = Raise _ => destruct b
    | (let '(_, _) := ?p in _) = Raise _ => destruct p
    | _ => discriminate H
    end.

Lemma load_basin_forcings_error (data_dir : DataDir)
  (basin_id forcings : string) (e : exn) :
  load_basin_forcings data_dir basin_id forcings = Raise e →
  ∀ msg, e ≠ NameError msg.
Proof.
  unfold load_basin_forcings, load_camels_daily_forcings,
    load_and_add_SWE_data_to_forcing, swe_pass, swe_assign,
    load_hydroatlas12_daily_forcing, select_rename, get_column,
    loc_setitem, concat_axis1, py_min, py_max.
  intros Hraise msg ->. raised Hraise.
Qed.

Lemma load_forcings_error (cfg : Config) (basin : string)
  (todo : list string) (dfs : list (DataFrame date float))
  (area : option Z) (e : exn) :
  load_forcings cfg basin todo dfs area = Raise e →
  ∃ forcing,
    forcing ∈ todo
    ∧ load_basin_forcings (cfg_data_dir cfg) basin forcing = Raise e.
Proof.
  revert dfs area. induction todo as [|forcing todo IH]; intros dfs area.
  - discriminate.
  - simpl. intros Hraise.
    apply bind_Raise in Hraise as [Hraise|([df a] & _ & Hraise)].
    + exists forcing. split; [by left|done].
    + apply IH in Hraise as (forcing' & Hin & Hraise).
      exists forcing'. split; [by right|done].
Qed.

(** X7.  [_load_basin_data] reads [area] only after a forcing product has
    set it: whatever the configuration, it never raises [NameError].
    Without any forcing product it raises the [ValueError] of [pd.concat],
    whether discharge is requested or not. *)
Theorem load_basin_data_area_is_bound (cfg : Config) (basin : string) :
  (∀ msg, _load_basin_data cfg basin ≠ Raise (NameError msg))
  ∧ (cfg_forcings cfg = [] →
     _load_basin_data cfg basin =
       Raise (ValueError "No objects to concatenate")).
Proof.
  split.
  - intros msg Hraise. unfold _load_basin_data in Hraise.
    apply bind_Raise in Hraise as [Hraise|(df & _ & [=])].
    unfold assemble_basin_data in Hraise.
    apply bind_Raise in Hraise as [Hraise|([dfs area] & Hloop & Hraise)].
    { apply load_forcings_error in Hraise as (forcing & _ & Hraise).
      by eapply load_basin_forcings_error. }
    apply bind_Raise in Hraise as [Hraise|(combined & Hconcat & Hraise)].
    { unfold concat_axis1 in Hraise. by destruct dfs. }
    destruct (bool_decide _); [|discriminate].
    destruct area as [area|].
    + apply bind_Raise in Hraise as [Hraise|(q & _ & [=])].
      unfold load_all_discharge in Hraise.
      by destruct (discharge_candidates _ _).
    + apply load_forcings_Ok in Hloop as (loaded & -> & _ & Harea).
      destruct loaded as [|l loaded]; [done|].
      rewrite last_cons in Harea. by destruct (last loaded).
  - intros Hnone. unfold _load_basin_data, assemble_basin_data.
    by rewrite Hnone.
Qed.

Lemma load_basin_data_area_is_bound_witness :
  _load_basin_data (mkConfig Fixture.data_dir [] ["QObs(mm/d)"]) "09034900" =
    Raise (ValueError "No objects to concatenate").
Proof.
  exact (proj2 (load_basin_data_area_is_bound
                  (mkConfig Fixture.data_dir [] ["QObs(mm/d)"]) "09034900")
           eq_refl).
Defined.

(** X8.  In the table [_load_basin_data] returns, with distinct column
    labels, no cell of a column whose name contains "qobs" compares below
    zero. *)
Theorem load_basin_data_qobs_not_negative (cfg : Config) (basin : string)
  (out : DataFrame date float) :
  _load_basin_data cfg basin = Ok out →
  NoDup (columns out) →
  ∀ (d : date) (vals : list float) (j : nat) (col : string) (v : float),
    (d, vals) ∈ rows out →
    columns out !! j = Some col →
    is_qobs col = true →
    vals !! j = Some v →
    (v <? 0)%float = false.
Proof.
  intros Hload Hnd d vals j col v Hrow Hcol Hqobs Hv.
  unfold _load_basin_data in Hload.
  apply bind_Ok in Hload as (df & _ & [= <-]).
  set (cols := List.filter is_qobs (columns df)) in *.
  destruct (mask_negative_foldl_frame cols df) as [Hcols Hidx].
  rewrite Hcols in Hnd, Hcol.
  destruct (mask_negative_fold cols df Hnd) as (_ & _ & Hrows).
  apply list_elem_of_lookup in Hrow as [i Hi].
  assert (Hlt : (i < length (rows df))%nat).
  { apply lookup_lt_Some in Hi.
    apply (f_equal length) in Hidx. unfold index in Hidx.
    rewrite !length_fmap in Hidx. lia. }
  apply lookup_lt_is_Some in Hlt as [[d0 vals0] Hi0].
  destruct (Hrows i d0 vals0 Hi0) as (vals' & Hi' & Hlen & Hcell).
  rewrite Hi in Hi'. injection Hi' as -> ->.
  assert (Hjlt : (j < length vals0)%nat)
    by (apply lookup_lt_Some in Hv; lia).
  apply lookup_lt_is_Some in Hjlt as [v0 Hv0].
  rewrite (Hcell j col v0 Hcol Hv0) in Hv. injection Hv as <-.
  rewrite decide_True.
  - unfold nan_if_negative. by destruct (v0 <? 0)%float eqn:Hneg.
  - apply list_elem_of_In, filter_In. split; [|done].
    by eapply list_elem_of_In, list_elem_of_lookup_2.
Qed.

Lemma load_basin_data_qobs_not_negative_witness :
  _load_basin_data Fixture.cfg "09034900" = Ok Fixture2.basin_table
  ∧ ∃ v,
      rows Fixture2.basin_table !! 1%nat =
        Some (Fixture.day 1, [3; 8; 30; nan; v]%float)
      ∧ (v <? 0)%float = false.
Proof.
  split; [vm_compute; reflexivity|].
  exists nan. split; [reflexivity|].
  eapply (load_basin_data_qobs_not_negative Fixture.cfg "09034900"
            Fixture2.basin_table _ _ (Fixture.day 1)
            [3; 8; 30; nan; nan]%float 4%nat "QObs(mm/d)" nan).
  Unshelve.
  all: first
    [ vm_compute; reflexivity
    | apply (bool_decide_unpack _); vm_compute; exact I
    | apply (list_elem_of_lookup_2 _ 1%nat); vm_compute; reflexivity ].
Defined.

Lemma elem_of_with_column (c x : string) (cols : list string) :
  c ∈ with_column x cols ↔ c = x ∨ c ∈ cols.
Proof.
  unfold with_column. destruct (col_pos x cols) as [j|] eqn:Hpos.
  - apply col_pos_Some in Hpos. split; [by right|].
    intros [->|?]; [by eapply list_elem_of_lookup_2|done].
  - rewrite elem_of_app, list_elem_of_singleton. tauto.
Qed.

Lemma concat_axis1_columns {K V} `{EqDecision K} `{Missing V}
  (union : list (list K) → list K) (dfs : list (DataFrame K V))
  (out : DataFrame K V) (c : string) :
  concat_axis1 union dfs = Ok out →
  c ∈ columns out ↔ ∃ df, df ∈ dfs ∧ c ∈ columns df.
Proof.
  intros Hout.
  assert (columns out = concat (columns <$> dfs)) as ->.
  { unfold concat_axis1 in Hout. destruct dfs; [done|].
    by injection Hout as <-. }
  split.
  - intros Hc. apply list_elem_of_In, in_concat in Hc as (cols & Hcols & Hc).
    apply list_elem_of_In, list_elem_of_fmap in Hcols as (df & -> & Hdf).
    exists df. split; [done|]. by apply list_elem_of_In.
  - intros (df & Hdf & Hc). apply list_elem_of_In, in_concat.
    exists (columns df). rewrite <- !list_elem_of_In. split; [|done].
    apply list_elem_of_fmap. by exists df.
Qed.

(** X9.  With two or more forcing products configured, the columns of the
    table [_load_basin_data] returns are the columns of each product's
    table with an underscore and the product name added, and the discharge
    column when discharge is requested. *)
Theorem forcing_columns_carry_product_name (cfg : Config) (basin : string)
  (out : DataFrame date float) :
  _load_basin_data cfg basin = Ok out →
  (1 < length (cfg_forcings cfg))%nat →
  ∀ c, c ∈ columns out ↔
       (c = "QObs(mm/d)" ∧ "QObs(mm/d)" ∈ cfg_target_variables cfg)
       ∨ ∃ forcing df area col,
           forcing ∈ cfg_forcings cfg
           ∧ load_basin_forcings (cfg_data_dir cfg) basin forcing
               = Ok (df, area)
           ∧ col ∈ columns df
           ∧ c = col +:+ "_" +:+ forcing.
Proof.
  intros Hload Hmany c. unfold _load_basin_data in Hload.
  apply bind_Ok in Hload as (df & Hasm & [= <-]).
  destruct (mask_negative_foldl_frame (List.filter is_qobs (columns df)) df)
    as [-> _].
  apply assemble_basin_data_Ok in Hasm
    as (loaded & combined & Hall & Hconcat & Hq).
  apply Nat.ltb_lt in Hmany. rewrite Hmany in Hall.
  assert (Hcombined : c ∈ columns combined ↔
            ∃ forcing df area col,
              forcing ∈ cfg_forcings cfg
              ∧ load_basin_forcings (cfg_data_dir cfg) basin forcing
                  = Ok (df, area)
              ∧ col ∈ columns df
              ∧ c = col +:+ "_" +:+ forcing).
  { rewrite (concat_axis1_columns _ _ _ _ Hconcat). split.
    - intros (df1 & Hdf1 & Hc).
      apply list_elem_of_fmap in Hdf1 as (l & -> & Hl).
      destruct (Forall2_elem_of_r _ _ _ _ Hall Hl)
        as (forcing & Hforcing & df0 & Hload & Heq).
      rewrite Heq in Hc. cbn [rename_columns columns] in Hc.
      apply list_elem_of_fmap in Hc as (col & -> & Hcol).
      by exists forcing, df0, l.2, col.
    - intros (forcing & df0 & area & col & Hforcing & Hload & Hcol & ->).
      destruct (Forall2_elem_of_l _ _ _ _ Hall Hforcing)
        as (l & Hl & df0' & Hload' & Heq).
      rewrite Hload in Hload'. injection Hload' as -> _.
      exists l.1. split; [apply list_elem_of_fmap; by exists l|].
      rewrite Heq. cbn [rename_columns columns].
      apply list_elem_of_fmap. by exists col. }
  destruct (bool_decide_reflect
              ("QObs(mm/d)" ∈ cfg_target_variables cfg)) as [Hin|Hnin].
  - destruct Hq as (l & q & _ & _ & ->). cbn [setitem columns].
    rewrite elem_of_with_column, Hcombined. tauto.
  - subst df. rewrite Hcombined. tauto.
Qed.

Lemma forcing_columns_carry_product_name_witness :
  _load_basin_data Fixture2.cfg_two "09034900" = Ok Fixture2.basin_table_two
  ∧ ("tmax(C)_daymet" ∈ columns Fixture2.basin_table_two)
  ∧ ("PRCP(mm/day)_nldas" ∈ columns Fixture2.basin_table_two).
Proof.
  split; [vm_compute; reflexivity|].
  pose proof (forcing_columns_carry_product_name Fixture2.cfg_two "09034900"
                Fixture2.basin_table_two) as Hcols.
  split; apply Hcols; try (vm_compute; reflexivity);
    try (apply Nat.ltb_lt; reflexivity); right.
  - eexists "daymet", _, _, "tmax(C)". split_and!; [|reflexivity| |done];
      apply (bool_decide_unpack _); vm_compute; exact I.
  - eexists "nldas", _, _, "PRCP(mm/day)". split_and!; [|reflexivity| |done];
      apply (bool_decide_unpack _); vm_compute; exact I.
Defined.

(** ** Static attributes: the primary table and the joins *)

Section join_facts.
Context {K V : Type} `{EqDecision K} `{Missing V}.

Lemma join_left_columns (df other out : DataFrame K V) :
  join_left df other = Ok out → columns out = columns df ++ columns other.
Proof.
  unfold join_left. destruct (bool_decide _); [done|]. by intros [= <-].
Qed.




End join_facts.

Section more_attributes.
Variable str_float : float → string.

(** X10.  [load_camels_attributes] takes no notice of [basins]: the table
    it returns has a row for every gauge_id of the attribute files and no
    other, and its columns are those of the files without huc_02, and
    huc. *)
Theorem load_camels_attributes_table (data_dir : DataDir)
  (basins : list string) (out : DataFrame string attr) :
  load_camels_attributes str_float data_dir basins = Ok out →
  ∃ files,
    camels_attributes_v2_0 data_dir = Some files
    ∧ (∀ b, b ∈ index out ↔ ∃ f, f ∈ files ∧ b ∈ index f)
    ∧ (∀ c, c ∈ columns out ↔
            c ≠ "huc_02" ∧ (c = "huc" ∨ ∃ f, f ∈ files ∧ c ∈ columns f))
    ∧ ∃ f, f ∈ files ∧ "huc_02" ∈ columns f.
Proof.
  intros Hload.
  destruct (load_camels_attributes_index _ _ _ _ Hload)
    as (files & Hfiles & Hidx).
  exists files. split; [done|]. split.
  { intros b. rewrite Hidx, elem_of_union_labels. split.
    - intros (idx & Hidx' & Hb).
      apply list_elem_of_fmap in Hidx' as (f & -> & Hf). by exists f.
    - intros (f & Hf & Hb). exists (index f). split; [|done].
      apply list_elem_of_fmap. by exists f. }
  unfold load_camels_attributes in Hload. rewrite Hfiles in Hload.
  apply bind_Ok in Hload as (df & Hconcat & Hload).
  apply bind_Ok in Hload as (huc_02 & Hhuc & Hdrop).
  assert (Hhas : "huc_02" ∈ columns df).
  { unfold get_column in Hhuc.
    destruct (col_pos "huc_02" (columns df)) as [j|] eqn:Hpos; [|done].
    apply col_pos_Some in Hpos. by eapply list_elem_of_lookup_2. }
  split; [|by apply (concat_axis1_columns _ _ _ _ Hconcat)].
  intros c. unfold drop_column in Hdrop.
  destruct (col_pos "huc_02" _); [|discriminate].
  injection Hdrop as <-. cbn [columns setitem].
  rewrite list_elem_of_filter, elem_of_with_column.
  by rewrite (concat_axis1_columns _ _ _ _ Hconcat).
Qed.

(** X11.  [load_camels_attributes] fails with [RuntimeError] when the
    attribute folder is missing, with the [ValueError] of [pd.concat] when
    the folder has no attribute file, and with [KeyError] when no file has
    a huc_02 column. *)
Theorem load_camels_attributes_errors (data_dir : DataDir)
  (basins : list string) :
  (camels_attributes_v2_0 data_dir = None →
   load_camels_attributes str_float data_dir basins =
     Raise (RuntimeError
              ("Attribute folder not found at " +:+ data_dir_path data_dir
               +:+ "/CAMELS_US/camels_attributes_v2.0")))
  ∧ (camels_attributes_v2_0 data_dir = Some [] →
     load_camels_attributes str_float data_dir basins =
       Raise (ValueError "No objects to concatenate"))
  ∧ (∀ files,
       camels_attributes_v2_0 data_dir = Some files →
       files ≠ [] →
       (∀ f, f ∈ files → "huc_02" ∉ columns f) →
       load_camels_attributes str_float data_dir basins =
         Raise (KeyError "huc_02")).
Proof.
  unfold load_camels_attributes. split_and!.
  - by intros ->.
  - by intros ->.
  - intros files -> Hne Hnone.
    destruct (concat_axis1 union_labels files) as [df|e] eqn:Hconcat.
    + cbn [mbind result_bind]. unfold get_column.
      destruct (col_pos "huc_02" (columns df)) as [j|] eqn:Hpos; [|done].
      apply col_pos_Some, list_elem_of_lookup_2 in Hpos.
      apply (concat_axis1_columns _ _ _ _ Hconcat) in Hpos
        as (f & Hf & Hhas).
      by destruct (Hnone f Hf).
    + unfold concat_axis1 in Hconcat. by destruct files.
Qed.

(** The steps of the joins that succeeded. *)
Lemma joined_attributes_Ok (data_dir : DataDir) (basins : list string)
  (df : DataFrame string attr) :
  joined_attributes str_float data_dir basins = Ok df →
  ∃ primary hydroatlas_df hydroatlas_pca_df mid,
    load_camels_attributes str_float data_dir [] = Ok primary
    ∧ camels_hydroatlas_csv data_dir = Some hydroatlas_df
    ∧ camels_hydroatlas_pca_transformed_all_csv data_dir
        = Some hydroatlas_pca_df
    ∧ let camels_basins :=
        filter
          (λ b, b ∈ read_basin_list (list_671_camels_basins_txt data_dir))
          basins in
      join_left primary (filter_isin camels_basins hydroatlas_df) = Ok mid
      ∧ join_left mid (filter_isin camels_basins hydroatlas_pca_df) = Ok df.
Proof.
  unfold joined_attributes. intros Hjoin.
  apply bind_Ok in Hjoin as (primary & Hprimary & Hjoin).
  apply bind_Ok in Hjoin as ([h p] & Hhydro & Hjoin).
  unfold load_camels_hydroatlas in Hhydro.
  destruct (camels_hydroatlas_csv data_dir) as [hydroatlas_df|];
    [|discriminate].
  destruct (camels_hydroatlas_pca_transformed_all_csv data_dir)
    as [hydroatlas_pca_df|]; [|discriminate].
  cbn zeta in Hhydro. injection Hhydro as <- <-.
  unfold add_hydroatlas_attributes_to_camels in Hjoin.
  apply bind_Ok in Hjoin as (mid & Hmid & Hout).
  by exists primary, hydroatlas_df, hydroatlas_pca_df, mid.
Qed.


(** X13.  The columns of the table [load_all_attributes] returns do not
    depend on the basins requested. *)
Theorem load_all_attributes_columns (data_dir : DataDir)
  (basins basins' : list string) (out out' : DataFrame string attr) :
  load_all_attributes str_float data_dir basins = Ok out →
  load_all_attributes str_float data_dir basins' = Ok out' →
  columns out = columns out'.
Proof.
  assert (Hcols : ∀ bs o,
            load_all_attributes str_float data_dir bs = Ok o →
            ∃ primary h p,
              load_camels_attributes str_float data_dir [] = Ok primary
              ∧ camels_hydroatlas_csv data_dir = Some h
              ∧ camels_hydroatlas_pca_transformed_all_csv data_dir = Some p
              ∧ columns o = (columns primary ++ columns h) ++ columns p).
  { intros bs o Hload. unfold load_all_attributes in Hload.
    apply bind_Ok in Hload as (df & Hjoin & Hload).
    apply joined_attributes_Ok in Hjoin
      as (primary & h & p & mid & Hprimary & Hh & Hp & Hmid & Hdf).
    exists primary, h, p. split_and!; try done.
    assert (Hcols : columns df = (columns primary ++ columns h) ++ columns p).
    { by rewrite (join_left_columns _ _ _ Hdf),
        (join_left_columns _ _ _ Hmid). }
    rewrite <- Hcols. destruct bs as [|b bs]; [by injection Hload as <-|].
    destruct (existsb _ _); [discriminate|].
    unfold loc_list in Hload. destruct (forallb _ _); [|discriminate].
    by injection Hload as <-. }
  intros Hout Hout'.
  destruct (Hcols _ _ Hout) as (primary & h & p & H1 & H2 & H3 & ->).
  destruct (Hcols _ _ Hout') as (primary' & h' & p' & H1' & H2' & H3' & ->).
  congruence.
Qed.

End more_attributes.

Lemma load_camels_attributes_table_witness :
  load_camels_attributes Fixture.str_float Fixture.data_dir ["09034900"]
    = Ok Fixture2.primary_table
  ∧ ("01013500" ∈ index Fixture2.primary_table)
  ∧ ("huc" ∈ columns Fixture2.primary_table)
  ∧ ("huc_02" ∉ columns Fixture2.primary_table).
Proof.
  split; [vm_compute; reflexivity|].
  edestruct (load_camels_attributes_table Fixture.str_float Fixture.data_dir
               ["09034900"] Fixture2.primary_table)
    as (files & Hfiles & Hidx & Hcols & _); [vm_compute; reflexivity|].
  injection Hfiles as <-. split_and!.
  - apply Hidx. exists Fixture.attributes_name. split; [by left|].
    apply (bool_decide_unpack _). vm_compute. exact I.
  - apply Hcols. split; [discriminate|by left].
  - intros Hin. by apply Hcols in Hin as [? _].
Defined.

Lemma load_camels_attributes_errors_witness :
  load_camels_attributes Fixture.str_float (Fixture2.with_attributes None)
    ["09034900"] =
    Raise (RuntimeError
             "Attribute folder not found at /data/CAMELS_US/camels_attributes_v2.0")
  ∧ load_camels_attributes Fixture.str_float
      (Fixture2.with_attributes (Some [])) ["09034900"] =
      Raise (ValueError "No objects to concatenate")
  ∧ load_camels_attributes Fixture.str_float
      (Fixture2.with_attributes (Some [Fixture.attributes_clim]))
      ["09034900"] =
      Raise (KeyError "huc_02").
Proof.
  split_and!.
  - exact (proj1 (load_camels_attributes_errors Fixture.str_float
                    (Fixture2.with_attributes None) ["09034900"]) eq_refl).
  - exact (proj1 (proj2 (load_camels_attributes_errors Fixture.str_float
                           (Fixture2.with_attributes (Some []))
                           ["09034900"])) eq_refl).
  - eapply (proj2 (proj2 (load_camels_attributes_errors Fixture.str_float
                            (Fixture2.with_attributes
                               (Some [Fixture.attributes_clim]))
                            ["09034900"]))).
    + reflexivity.
    + discriminate.
    + intros f ->%list_elem_of_singleton.
      apply (bool_decide_unpack _). vm_compute. exact I.
Defined.


Lemma load_all_attributes_columns_witness :
  load_all_attributes Fixture.str_float Fixture.data_dir []
    = Ok Fixture2.all_attributes
  ∧ load_all_attributes Fixture.str_float Fixture.data_dir ["01013500"]
      = Ok Fixture2.attributes_01013500
  ∧ columns Fixture2.all_attributes = columns Fixture2.attributes_01013500.
Proof.
  split; [vm_compute; reflexivity|]. split; [vm_compute; reflexivity|].
  eapply (load_all_attributes_columns Fixture.str_float Fixture.data_dir
            [] ["01013500"]); vm_compute; reflexivity.
Defined.

(** ** Strings: reversal, prefixes, stripping *)

Lemma append_cons (c : ascii) (s t : string) :
  String c s +:+ t = String c (s +:+ t).
Proof. reflexivity. Qed.

Lemma append_nil_r (s : string) : s +:+ "" = s.
Proof.
  induction s as [|c s IH]; [done|]. by rewrite append_cons, IH.
Qed.

Lemma append_assoc (a b c : string) : (a +:+ b) +:+ c = a +:+ b +:+ c.
Proof.
  induction a as [|x a IH]; [done|]. by rewrite !append_cons, IH.
Qed.

Lemma length_append (a b : string) :
  String.length (a +:+ b) = (String.length a + String.length b)%nat.
Proof.
  induction a as [|x a IH]; [done|].
  rewrite append_cons. cbn [String.length]. by rewrite IH.
Qed.

Lemma rev_onto_spec (s acc : string) :
  Str.rev_onto s acc = Str.rev s +:+ acc.
Proof.
  unfold Str.rev. revert acc. induction s as [|c s IH]; intros acc; simpl.
  - done.
  - rewrite (IH (String c acc)), (IH (String c "")).
    by rewrite append_assoc.
Qed.

Lemma rev_cons (c : ascii) (s : string) :
  Str.rev (String c s) = Str.rev s +:+ String c "".
Proof. unfold Str.rev at 1. simpl. apply rev_onto_spec. Qed.

Lemma rev_append (a b : string) :
  Str.rev (a +:+ b) = Str.rev b +:+ Str.rev a.
Proof.
  induction a as [|c a IH].
  - change (Str.rev b = Str.rev b +:+ ""). by rewrite append_nil_r.
  - change (Str.rev (String c (a +:+ b)) = Str.rev b +:+ Str.rev (String c a)).
    by rewrite !rev_cons, IH, append_assoc.
Qed.

Lemma rev_involutive (s : string) : Str.rev (Str.rev s) = s.
Proof.
  induction s as [|c s IH]; [done|].
  by rewrite rev_cons, rev_append, IH.
Qed.

Lemma length_rev (s : string) : String.length (Str.rev s) = String.length s.
Proof.
  induction s as [|c s IH]; [done|].
  rewrite rev_cons, length_append, IH. simpl. lia.
Qed.





Lemma lstrip_whitespace (ws t : string) :
  Str.lstrip ws = "" → Str.lstrip (ws +:+ t) = Str.lstrip t.
Proof.
  induction ws as [|c ws IH]; [done|].
  rewrite append_cons. simpl.
  destruct (Str.is_space c); [done|discriminate].
Qed.

Lemma lstrip_split (s : string) :
  ∃ ws, s = ws +:+ Str.lstrip s ∧ Str.lstrip ws = "".
Proof.
  induction s as [|c s (ws & IH & Hws)]; simpl.
  - by exists "".
  - destruct (Str.is_space c) eqn:Hc.
    + exists (String c ws). rewrite append_cons. simpl. rewrite Hc.
      split; [congruence|done].
    + by exists "".
Qed.

Lemma lstrip_idemp (s : string) : Str.lstrip (Str.lstrip s) = Str.lstrip s.
Proof.
  induction s as [|c s IH]; simpl; [done|].
  destruct (Str.is_space c) eqn:Hc; [done|]. simpl. by rewrite Hc.
Qed.

Lemma rev_eq_nil (s : string) : Str.rev s = "" → s = "".
Proof. intros Hrev. by rewrite <- (rev_involutive s), Hrev. Qed.

Lemma rstrip_idemp (s : string) : Str.rstrip (Str.rstrip s) = Str.rstrip s.
Proof.
  unfold Str.rstrip. by rewrite rev_involutive, lstrip_idemp.
Qed.

(** [rstrip] removes a run of whitespace at the end and nothing else. *)
Lemma rstrip_split (s : string) :
  ∃ ws, s = Str.rstrip s +:+ ws ∧ Str.rstrip ws = "".
Proof.
  destruct (lstrip_split (Str.rev s)) as (ws & Hs & Hws).
  exists (Str.rev ws). unfold Str.rstrip. split.
  - by rewrite <- rev_append, <- Hs, rev_involutive.
  - by rewrite rev_involutive, Hws.
Qed.

Lemma rstrip_append_whitespace (s ws : string) :
  Str.rstrip s = s → Str.rstrip ws = "" → Str.rstrip (s +:+ ws) = s.
Proof.
  unfold Str.rstrip. intros Hs Hws. apply rev_eq_nil in Hws.
  by rewrite rev_append, lstrip_whitespace.
Qed.

(** ** Files and basin lists *)



(** X15.  The basin lists are read with [rstrip]: a basin is found on a
    line whatever whitespace follows it there, and an identifier that
    itself ends in whitespace is on no list, so that [load_basin_forcings]
    raises the "not found in either" error for it. *)
Theorem basin_lists_are_stripped (data_dir : DataDir)
  (basin_id forcings : string) :
  (∀ lines ws,
     basin_id +:+ ws ∈ lines →
     Str.rstrip basin_id = basin_id →
     Str.rstrip ws = "" →
     basin_id ∈ read_basin_list lines)
  ∧ (Str.rstrip basin_id ≠ basin_id →
     load_basin_forcings data_dir basin_id forcings =
       Raise (RuntimeError
                "Basin ID not found in either CAMELS Nor HydroAtlas")).
Proof.
  split.
  - intros lines ws Hin Hid Hws. unfold read_basin_list.
    apply list_elem_of_fmap. exists (basin_id +:+ ws). split; [|done].
    by rewrite rstrip_append_whitespace.
  - intros Hid.
    assert (Hnot : ∀ lines, basin_id ∉ read_basin_list lines).
    { intros lines Hin. unfold read_basin_list in Hin.
      apply list_elem_of_fmap in Hin as (line & Heq & _).
      apply Hid. rewrite Heq. apply rstrip_idemp. }
    unfold load_basin_forcings.
    by rewrite !bool_decide_eq_false_2.
Qed.

Lemma basin_lists_are_stripped_witness :
  "09034900" ∈ read_basin_list ["01013500"; "09034900" +:+ "  "]
  ∧ load_basin_forcings Fixture.data_dir ("09034900" +:+ " ") "daymet" =
      Raise (RuntimeError
               "Basin ID not found in either CAMELS Nor HydroAtlas").
Proof.
  split.
  - eapply (proj1 (basin_lists_are_stripped Fixture.data_dir "09034900"
                     "daymet") _ "  ").
    + right. by left.
    + reflexivity.
    + reflexivity.
  - apply (proj2 (basin_lists_are_stripped Fixture.data_dir
                    ("09034900" +:+ " ") "daymet")).
    vm_compute. discriminate.
Defined.

(** ** HydroAtlas basins *)

(** X16.  For a basin that is in the HydroAtlas list only, no CAMELS file
    is read: [load_basin_forcings] gives the same result, the table of
    [load_hydroatlas12_daily_forcing] with the area 1, whatever the forcing
    product asked for and whatever the forcing folders, the SWE files and
    the streamflow files hold. *)
Theorem hydroatlas_basin_reads_no_camels_file (data_dir data_dir' : DataDir)
  (basin_id forcings forcings' : string) :
  basin_id ∉ read_basin_list (list_671_camels_basins_txt data_dir) →
  basin_id ∈ read_basin_list (list_colorado_hydroatlas_basins_txt data_dir) →
  list_671_camels_basins_txt data_dir' = list_671_camels_basins_txt data_dir →
  list_colorado_hydroatlas_basins_txt data_dir'
    = list_colorado_hydroatlas_basins_txt data_dir →
  hydroatlas_co_apcpsfc_qc_daily_csv data_dir'
    = hydroatlas_co_apcpsfc_qc_daily_csv data_dir →
  hydroatlas_co_dswrfsfc_qc_daily_csv data_dir'
    = hydroatlas_co_dswrfsfc_qc_daily_csv data_dir →
  hydroatlas_co_pressfc_qc_daily_csv data_dir'
    = hydroatlas_co_pressfc_qc_daily_csv data_dir →
  hydroatlas_co_tmp2m_max_qc_daily_csv data_dir'
    = hydroatlas_co_tmp2m_max_qc_daily_csv data_dir →
  hydroatlas_co_tmp2m_min_qc_daily_csv data_dir'
    = hydroatlas_co_tmp2m_min_qc_daily_csv data_dir →
  load_basin_forcings data_dir' basin_id forcings'
    = load_basin_forcings data_dir basin_id forcings
  ∧ ∀ df area,
      load_basin_forcings data_dir basin_id forcings = Ok (df, area) →
      area = 1
      ∧ load_hydroatlas12_daily_forcing data_dir basin_id = Ok df.
Proof.
  intros Hcamels Hhydro E1 E2 E3 E4 E5 E6 E7.
  unfold load_basin_forcings, load_hydroatlas12_daily_forcing.
  rewrite E1, E2, E3, E4, E5, E6, E7.
  rewrite (bool_decide_eq_false_2 _ Hcamels), (bool_decide_eq_true_2 _ Hhydro).
  split; [done|]. intros df area Hload.
  apply bind_Ok in Hload as (df' & Hload & [= <- <-]). by rewrite Hload.
Qed.

Lemma hydroatlas_basin_reads_no_camels_file_witness :
  load_basin_forcings (Fixture2.with_files [] None) "1020000010" "nldas"
    = load_basin_forcings Fixture2.data_dir "1020000010" "daymet".
Proof.
  refine (proj1 (hydroatlas_basin_reads_no_camels_file Fixture2.data_dir
                   (Fixture2.with_files [] None) "1020000010" "daymet"
                   "nldas" _ _ eq_refl eq_refl eq_refl eq_refl eq_refl
                   eq_refl eq_refl)).
  - apply (bool_decide_unpack _). vm_compute. exact I.
  - apply (bool_decide_unpack _). vm_compute. exact I.
Defined.

(** X17.  [load_hydroatlas12_daily_forcing] raises [KeyError] for a basin
    that has no column in one of the five files, and, for a basin that has
    its five columns, the [ValueError] of [min] when none of the files has
    a row. *)
Theorem load_hydroatlas12_daily_forcing_errors (data_dir : DataDir)
  (basin : string) :
  let files :=
    [hydroatlas_co_apcpsfc_qc_daily_csv data_dir;
     hydroatlas_co_dswrfsfc_qc_daily_csv data_dir;
     hydroatlas_co_pressfc_qc_daily_csv data_dir;
     hydroatlas_co_tmp2m_max_qc_daily_csv data_dir;
     hydroatlas_co_tmp2m_min_qc_daily_csv data_dir] in
  (Exists (λ f, basin ∉ columns f) files →
   load_hydroatlas12_daily_forcing data_dir basin = Raise (KeyError basin))
  ∧ (Forall (λ f, basin ∈ columns f ∧ rows f = []) files →
     load_hydroatlas12_daily_forcing data_dir basin =
       Raise (ValueError "min() arg is an empty sequence")).
Proof.
  intros files. unfold load_hydroatlas12_daily_forcing, select_rename,
    get_column.
  split.
  - intros Hex. unfold files in Hex.
    repeat match goal with
           | |- context [col_pos basin ?c] =>
               destruct (col_pos basin c) eqn:?;
               cbn [mbind result_bind]; try done
           end.
    repeat (apply Exists_cons in Hex as [Hex%col_pos_None|Hex];
            [congruence|]).
    by apply Exists_nil in Hex.
  - intros Hall. unfold files in Hall.
    repeat (apply Forall_cons in Hall as [[? Hrows] Hall];
            rewrite Hrows; clear Hrows).
    repeat match goal with
           | |- context [col_pos basin ?c] =>
               let Hpos := fresh "Hpos" in
               destruct (col_pos basin c) eqn:Hpos;
               [|by apply col_pos_None in Hpos]
           end.
    reflexivity.
Qed.

Lemma load_hydroatlas12_daily_forcing_errors_witness :
  load_hydroatlas12_daily_forcing Fixture.data_dir "1020000099" =
    Raise (KeyError "1020000099")
  ∧ load_hydroatlas12_daily_forcing
      (Fixture2.with_streamflow [] (mkDataFrame ["1020000010"] []))
      "1020000010" =
      Raise (ValueError "min() arg is an empty sequence").
Proof.
  split.
  - apply (proj1 (load_hydroatlas12_daily_forcing_errors Fixture.data_dir
                    "1020000099")).
    apply Exists_cons_hd.
    apply (bool_decide_unpack _). vm_compute. exact I.
  - apply (proj2 (load_hydroatlas12_daily_forcing_errors
                    (Fixture2.with_streamflow []
                       (mkDataFrame ["1020000010"] []))
                    "1020000010")).
    repeat constructor.
Defined.

(** ** Discharge values *)

Lemma div_nan_l (y : float) : (nan / y)%float = nan.
Proof. by rewrite <- (SF2Prim_Prim2SF (nan / y)), div_spec. Qed.

(** X18.  A missing discharge stays missing: where the streamflow file
    has NaN, [load_all_discharge] returns NaN, whatever the area. *)
Theorem load_all_discharge_keeps_nan (data_dir : DataDir) (basin : string)
  (area : Z) (q : Series date float) :
  load_all_discharge data_dir basin area = Ok q →
  ∃ f rest,
    discharge_candidates data_dir basin = f :: rest
    ∧ ∀ (i : nat) (d : date),
        sf_QObs f !! i = Some (d, nan) → q !! i = Some (d, nan).
Proof.
  unfold load_all_discharge. intros Hq.
  destruct (discharge_candidates data_dir basin) as [|f rest];
    [discriminate|].
  injection Hq as <-. exists f, rest. split; [done|].
  intros i d Hi. rewrite list_lookup_fmap, Hi. cbn [fmap option_fmap option_map fst snd].
  change (28316846.592 * nan * 86400)%float with nan.
  by rewrite div_nan_l.
Qed.

Lemma load_all_discharge_keeps_nan_witness :
  ∃ q,
    load_all_discharge
      (Fixture2.with_streamflow [Fixture2.streamflow_gap]
         (Fixture.hydro 1 []))
      "09034900" 500 = Ok q
    ∧ q !! 1%nat = Some (Fixture.day 1, nan).
Proof.
  eexists. split; [reflexivity|].
  edestruct (load_all_discharge_keeps_nan
               (Fixture2.with_streamflow [Fixture2.streamflow_gap]
                  (Fixture.hydro 1 []))
               "09034900" 500) as (f & rest & Hglob & Hnan); [reflexivity|].
  injection Hglob as <- <-. exact (Hnan 1%nat (Fixture.day 1) eq_refl).
Defined.

(** ** The list of the basins outside Colorado *)

#[local] Instance str_le_total : Total ExcludingColorado.str_le.
Proof.
  intros a b. unfold ExcludingColorado.str_le.
  destruct (String.leb_total a b) as [->| ->]; [by left|by right].
Qed.

(** X19.  The script lists exactly the basins of the CAMELS list that are
    not in the Colorado list, each once, in increasing order. *)
Theorem exclusive_basins_spec (co_basins list_671_camels_basins : list string) :
  let out :=
    ExcludingColorado.exclusive_basins co_basins list_671_camels_basins in
  (∀ b, b ∈ out ↔ b ∈ list_671_camels_basins ∧ b ∉ co_basins)
  ∧ NoDup out
  ∧ Sorted ExcludingColorado.str_le out.
Proof.
  intros out. unfold out, ExcludingColorado.exclusive_basins. split_and!.
  - intros b. rewrite merge_sort_Permutation, list_elem_of_difference.
    by rewrite !elem_of_remove_dups.
  - rewrite merge_sort_Permutation.
    apply NoDup_list_difference, NoDup_remove_dups.
  - apply (Sorted_merge_sort _).
Qed.


